(** * Drive-to-BigQuery and Storage-to-BigQuery connectors

    A shallow embedding of [google_shared_drive_connector.py],
    [google_shared_drive_configs.py] and [google_storage_connector.py].

    Python values are modelled as follows.
    - A [str] is the list of its Unicode code points ([N]); literals are
      written [py "..."].  Code points rather than bytes, because
      [unidecode] transliterates code point by code point.
    - Python integers are [Z].
    - A [dict] whose iteration order matters (the [dtypes] of a folder) is
      an association list; the folder dictionary built by [run_transfer]
      is a [gmap].
    - Code that raises returns a [res]; methods that also mutate the
      connector or talk to a service run in the monad [M], which threads
      the connector state and the log of observable actions.
    - The notifier of [send_mail.py] is an external collaborator: building
      and sending a message is the single action [EMail], and the
      notifier is taken to accept it.  An exception of [send_mail], which
      no caller guards, is outside the model; the statements about how a
      run ends say what makes it end, not that nothing else does.
    - What the remote services answer (Drive listings, the dedup query,
      the download, the load job) is data of the run: the listings are
      fields of [world], the answers given while one file is processed
      are the [answers] carried by that file. *)

From Stdlib Require Import ZArith NArith List Ascii String Lia Bool DecimalString.
From Stdlib.Strings Require Import Byte.
From stdpp Require Import base list gmap strings.
Import ListNotations.

(** ** Python strings *)

Abbreviation str := (list N).

Fixpoint py (s : string) : str :=
  match s with
  | EmptyString => []
  | String a s' => N_of_ascii a :: py s'
  end.

Definition nl : str := [10%N].

Definition str_eqb (a b : str) : bool := bool_decide (a = b).

(** [str(n)] for an integer. *)
Definition str_of_int (n : Z) : str := py (NilZero.string_of_int (Z.to_int n)).

(** [s.startswith(p)] *)
Fixpoint startswith (p s : str) : bool :=
  match p, s with
  | [], _ => true
  | _ :: _, [] => false
  | a :: p', b :: s' => N.eqb a b && startswith p' s'
  end.

(** The left-to-right scan of [str.replace]: [skip] counts the characters
    of a match of [old] that are still to be dropped. *)
Fixpoint replace_scan (old new : str) (skip : nat) (s : str) : str :=
  match s with
  | [] => []
  | c :: s' =>
      match skip with
      | S k => replace_scan old new k s'
      | O =>
          if startswith old s
          then new ++ replace_scan old new (Nat.pred (length old)) s'
          else c :: replace_scan old new 0 s'
      end
  end.

(** [s.replace(old, new)]: every non-overlapping occurrence, leftmost
    first.  With an empty [old] Python puts [new] before every character
    and at the end. *)
Definition replace (old new s : str) : str :=
  match old with
  | [] => new ++ flat_map (fun c => c :: new) s
  | _ :: _ => replace_scan old new 0 s
  end.

(** [sub in s] *)
Fixpoint contains (sub s : str) : bool :=
  startswith sub s ||
  match s with
  | [] => false
  | _ :: s' => contains sub s'
  end.

(** [sep.join(parts)] *)
Fixpoint join (sep : str) (parts : list str) : str :=
  match parts with
  | [] => []
  | [p] => p
  | p :: rest => p ++ sep ++ join sep rest
  end.

(** [s.split(sep)] for a one-character separator: [cur] is the piece read
    so far, in reverse. *)
Fixpoint split_scan (sep : N) (cur : str) (s : str) : list str :=
  match s with
  | [] => [rev cur]
  | c :: s' =>
      if N.eqb c sep then rev cur :: split_scan sep [] s'
      else split_scan sep (c :: cur) s'
  end.

Definition split (sep : N) (s : str) : list str := split_scan sep [] s.

(** ** Column-name cleaning *)

(** [chars_to_replace]: "BQ does not allow these chars in table names". *)
Definition chars_to_replace : list str :=
  [py " "; py "%"; py "-"; py "("; py ")"; py "["; py "]"; py "/"].

Section Unidecode.

(** [unidecode] is a third-party package.  Its transliteration table is
    taken as a parameter: [table c] is the replacement text of a code
    point [c >= 0x80] (the empty string where the package has none, its
    default [errors='ignore']).  Code points below [0x80] are returned
    as they are, whatever the table. *)
Variable table : N -> str.

Definition unidecode (s : str) : str :=
  flat_map (fun c => if N.ltb c 128 then [c] else table c) s.

(** [DriveConnector.clean_column_str] *)
Definition clean_column_str (column : str) : str :=
  let column := replace (py "[+]") (py "plus") column in
  let column := replace (py "[-]") (py "minus") column in
  let column :=
    fold_left (fun column char => replace char (py "_") column)
              chars_to_replace column in
  unidecode column.

(** [DriveConnector.clean_column_names]: [columns] is the pandas index
    of column labels; [columns.str.replace(_, _, regex=False)] replaces
    in every label. *)
Definition clean_column_names (columns : list str) : list str :=
  let columns := map (replace (py "[+]") (py "plus")) columns in
  let columns := map (replace (py "[-]") (py "minus")) columns in
  let columns :=
    fold_left (fun columns char => map (replace char (py "_")) columns)
              chars_to_replace columns in
  map unidecode columns.

End Unidecode.

(** Entries of [unidecode]'s table for U+0080..U+00FF and U+0100..U+01FF
    that the examples below use: NO-BREAK SPACE gives a space, the
    copyright sign gives "(c)", accented Latin letters give their base
    letter.  Code points outside this excerpt are left without
    replacement. *)
Definition unidecode_excerpt (c : N) : str :=
  if N.eqb c 160 then py " "
  else if N.eqb c 169 then py "(c)"
  else if N.eqb c 233 then py "e"
  else if N.eqb c 243 then py "o"
  else if N.eqb c 261 then py "a"
  else if N.eqb c 322 then py "l"
  else [].

(** ** Exceptions and results *)

Inductive exn :=
| ValueError (msg : str)
| KeyError (key : str)
| TypeError
| IndexError
| UnboundLocalError
| NotFound
| BadRequest (msg : str)
| OtherError (msg : str)
| AttributeError.

Inductive res (A : Type) :=
| Ok (a : A)
| Raise (e : exn).
Arguments Ok {A} a.
Arguments Raise {A} e.

Definition res_bind {A B} (r : res A) (k : A -> res B) : res B :=
  match r with
  | Ok a => k a
  | Raise e => Raise e
  end.

(** ** Configuration ([google_shared_drive_configs.py]) *)

(** The Python types used as declared column types; [PyOther] stands for
    any type that is not a key of [bq_types_mapping]. *)
Inductive pytype := PyInt | PyStr | PyFloat | PyBool | PyOther (name : str).

Definition bq_types_mapping (t : pytype) : option str :=
  match t with
  | PyInt => Some (py "INT64")
  | PyStr => Some (py "STRING")
  | PyFloat => Some (py "FLOAT64")
  | PyBool => Some (py "BOOLEAN")
  | PyOther _ => None
  end.

(** [str(type)] for the message of a failed lookup. *)
Definition pytype_name (t : pytype) : str :=
  match t with
  | PyInt => py "int"
  | PyStr => py "str"
  | PyFloat => py "float"
  | PyBool => py "bool"
  | PyOther name => name
  end.

Definition folder3_columns_to_float : list str :=
  [py "column_4"; py "column_5"].

(** One folder's entry of [configs].  [dtypes] keeps the insertion order
    of the Python dict; the other keys are optional ([config.get]). *)
Record config := {
  date_cols : option (list str);
  dtypes : list (str * pytype);
  skip_rows : option Z;
  encoding : option str;
  dayfirst : option bool;
  delimiter : option str;
  decimal : option str
}.

Inductive config_value :=
| Folders (names : list str)
| Entry (c : config).

Definition config_folder_12 : config := {|
  date_cols := Some [py "col_date"];
  dtypes := [ (py "column_1", PyInt); (py "column_2", PyStr);
              (py "column_3", PyStr); (py "column_4", PyFloat);
              (py "column_5", PyFloat); (py "column_6", PyStr);
              (py "column_7", PyFloat) ];
  skip_rows := Some 2%Z;
  encoding := Some (py "CP1250");
  dayfirst := None; delimiter := None; decimal := None
|}.

Definition config_folder_3 : config := {|
  date_cols := Some [py "date_col"];
  dtypes := [ (py "column_1", PyStr); (py "column_2", PyInt);
              (py "column_3", PyStr); (py "column_4", PyStr);
              (py "column_5", PyFloat); (py "column_6", PyStr);
              (py "column_7", PyFloat) ];
  skip_rows := None; encoding := None;
  dayfirst := None; delimiter := None; decimal := None
|}.

Definition configs : list (str * config_value) :=
  [ (py "all_folders", Folders [py "folder_1"; py "folder_2"; py "folder_3"]);
    (py "folder_1", Entry config_folder_12);
    (py "folder_2", Entry config_folder_12);
    (py "folder_3", Entry config_folder_3) ].

(** [d[key]] on an association list with distinct keys. *)
Fixpoint assoc {V} (key : str) (d : list (str * V)) : option V :=
  match d with
  | [] => None
  | (k, v) :: d' => if str_eqb k key then Some v else assoc key d'
  end.

(** [configs['all_folders']] *)
Definition all_folders : list str :=
  match assoc (py "all_folders") configs with
  | Some (Folders names) => names
  | _ => []
  end.

(** [configs[folder_name]] used as a folder entry: a missing key raises
    [KeyError], subscripting the [all_folders] list with a string raises
    [TypeError]. *)
Definition config_of (folder_name : str) : res config :=
  match assoc folder_name configs with
  | None => Raise (KeyError folder_name)
  | Some (Folders _) => Raise TypeError
  | Some (Entry c) => Ok c
  end.

(** [configs[folder_name]] read with [.get]: a missing key raises
    [KeyError]; the [all_folders] list has no [get], which raises
    [AttributeError]. *)
Definition config_get (folder_name : str) : res config :=
  match assoc folder_name configs with
  | None => Raise (KeyError folder_name)
  | Some (Folders _) => Raise AttributeError
  | Some (Entry c) => Ok c
  end.

(** [x in l] for a list or tuple of strings. *)
Definition str_in (x : str) (l : list str) : bool := bool_decide (x ∈ l).

(** ** Schema ([DriveConnector.create_schema]) *)

Record field := {
  f_name : str;
  f_type : str;
  f_description : str
}.

Section Schema.

Variable table : N -> str.

(** The body of the loop over [dtypes.items()]. *)
Definition schema_column (folder_name : str) (schema : list field)
           (item : str * pytype) : res (list field) :=
  let (column, type) := item in
  let type :=
    if str_eqb folder_name (py "folder_3")
       && str_in column folder3_columns_to_float
    then PyFloat else type in
  let column_cleaned := clean_column_str table column in
  match bq_types_mapping type with
  | None => Raise (KeyError (pytype_name type))
  | Some bq_type =>
      Ok (schema ++ [ {| f_name := column_cleaned;
                         f_type := bq_type;
                         f_description := column |} ])
  end.

(** The body of the loop over [date_cols]. *)
Definition schema_date_col (schema : list field) (date_col : str)
  : list field :=
  let date_col_clean := clean_column_str table date_col in
  schema ++ [ {| f_name := date_col_clean;
                 f_type := py "TIMESTAMP";
                 f_description := date_col |} ].

Fixpoint schema_columns (folder_name : str) (schema : list field)
         (items : list (str * pytype)) : res (list field) :=
  match items with
  | [] => Ok schema
  | item :: items' =>
      res_bind (schema_column folder_name schema item)
               (fun schema => schema_columns folder_name schema items')
  end.

(** [create_schema] once [configs[folder_name]] has been looked up. *)
Definition create_schema_from (folder_name : str) (cfg : config)
  : res (list field) :=
  res_bind (schema_columns folder_name [] (dtypes cfg))
    (fun schema =>
       match date_cols cfg with
       | Some ((_ :: _) as dcs) => Ok (fold_left schema_date_col dcs schema)
       | _ => Ok schema
       end).

Definition create_schema (folder_name : str) : res (list field) :=
  res_bind (config_of folder_name) (create_schema_from folder_name).

End Schema.

(** ** Connector state, observable actions and the monad *)

(** The keyword arguments [get_df_from_file_id] passes to [pd.read_csv]. *)
Record read_csv_params := {
  p_encoding : option str;
  p_skiprows : option Z;
  p_parse_dates : option (list str);
  p_dayfirst : option bool;
  p_dtype : list (str * pytype);
  p_delimiter : str;
  p_decimal : str
}.

(** A data frame as far as the connector looks at it: its column labels
    and its number of rows. *)
Record dataframe := {
  df_columns : list str;
  df_rows : nat
}.

(** What the connector does to the outside, in order. *)
Inductive event :=
| EPrint (text : str)
| EMail (subject body : str)
| ESleep (seconds : Z)
| EQuery (sql : str)
| EDownload (file_id : str) (params : read_csv_params)
| ELoad (table_id : str) (df : dataframe) (schema : list field).

(** [files_added] is the list object bound to the class attribute of
    [DriveConnector]: no method rebinds it, [append] mutates it in place,
    so it belongs to the process.  [counter] is the instance attribute,
    absent until [self.counter += 1] first binds it; reading
    [self.counter] then falls back to the class attribute, which stays
    [1]. *)
Record state := {
  files_added : list str;
  counter : option Z;
  log : list event
}.

(** Computations over a state [S] that may raise.  The state reached when
    an exception is raised is kept: what was done before it stays done. *)
Definition M (S A : Type) : Type := S -> res A * S.

Definition ret {S A} (a : A) : M S A := fun s => (Ok a, s).

Definition bind {S A B} (c : M S A) (k : A -> M S B) : M S B :=
  fun s =>
    match c s with
    | (Ok a, s') => k a s'
    | (Raise e, s') => (Raise e, s')
    end.

Definition raise {S A} (e : exn) : M S A := fun s => (Raise e, s).

Definition lift {S A} (r : res A) : M S A := fun s => (r, s).

(** [try: c except ... as e: h e], where [handler e] is the handler [h e]
    of an exception the [except] clause matches. *)
Definition try_except {S A} (c : M S A) (handler : exn -> option (M S A))
  : M S A :=
  fun s =>
    match c s with
    | (Ok a, s') => (Ok a, s')
    | (Raise e, s') =>
        match handler e with
        | Some h => h s'
        | None => (Raise e, s')
        end
    end.

Declare Scope conn_scope.
Delimit Scope conn_scope with conn.
Notation "x <- c ;; k" := (bind c (fun x => k))
  (at level 100, c at next level, right associativity) : conn_scope.
Notation "c ;; k" := (bind c (fun _ => k))
  (at level 100, right associativity) : conn_scope.
Open Scope conn_scope.

(** [for x in l: body x] *)
Fixpoint for_each {S A} (l : list A) (body : A -> M S unit) : M S unit :=
  match l with
  | [] => ret tt
  | x :: l' => body x ;; for_each l' body
  end.

(** The methods of [DriveConnector] run over [state]. *)
Abbreviation DM := (M state).

Definition emit (e : event) : DM unit :=
  fun s => (Ok tt, {| files_added := files_added s;
                      counter := counter s;
                      log := log s ++ [e] |}).

(** The class attribute [DriveConnector.counter]. *)
Definition class_counter : Z := 1.

(** [self.counter] *)
Definition get_counter : DM Z :=
  fun s => (Ok (default class_counter (counter s)), s).

(** [self.counter += 1] *)
Definition incr_counter : DM unit :=
  fun s => (Ok tt, {| files_added := files_added s;
                      counter := Some (default class_counter (counter s) + 1)%Z;
                      log := log s |}).

(** [self.files_added.append(file_name)] *)
Definition files_added_append (file_name : str) : DM unit :=
  fun s => (Ok tt, {| files_added := files_added s ++ [file_name];
                      counter := counter s;
                      log := log s |}).

(** [self.files_added] *)
Definition get_files_added : DM (list str) :=
  fun s => (Ok (files_added s), s).

(** A freshly constructed [DriveConnector] in a process whose state is
    [s]: no instance attribute [counter] yet; the class-level list is the
    one every earlier instance appended to. *)
Definition new_instance (s : state) : state :=
  {| files_added := files_added s; counter := None; log := log s |}.

(** The state a process starts in. *)
Definition fresh_process : state :=
  {| files_added := []; counter := None; log := [] |}.

(** ** The remote services *)

(** What the services answer while one file is processed. *)
Record answers := {
  a_query : res unit;          (* bq_client.query(sql_query) *)
  a_result : res Z;            (* query_job.result().total_rows *)
  a_read_csv : res dataframe;  (* the download and pd.read_csv *)
  a_astype : res unit;         (* df[column].astype(float) *)
  a_load : res unit            (* load_table_from_dataframe, job.result() *)
}.

(** An entry of a Drive [files().list] response. *)
Record drive_file := {
  d_id : str;
  d_name : str;
  d_parents : list str;
  d_trashed : bool;
  d_answers : answers
}.

(** An entry of the [drives().list] response. *)
Record drive := {
  drive_name : str;
  drive_id : str
}.

Record world := {
  (** [service.drives().list(pageSize=10).execute().get('drives', [])] *)
  w_drives : res (list drive);
  (** [service.files().list(q=query, fields=fields, driveId=...)
      .execute().get('files', [])] *)
  w_files : option str -> str -> str -> res (list drive_file);
  (** [(now - 1 day).strftime('%Y-%m-%dT00:00:00')] *)
  w_yesterday : str
}.

(** ** [DriveConnector] *)

Section DriveConnector.

Variable table : N -> str.

(** The dataclass fields, and the project of the credentials. *)
Variable shared_drive_name : str.
Variable dataset : str.
Variable project : str.

Variable w : world.

(** [get_shared_drive_id]: both [RuntimeError]s are constructed and not
    raised, so a drive that is not listed gives [None]. *)
Fixpoint find_drive (items : list drive) : option str :=
  match items with
  | [] => None
  | item :: items' =>
      if str_eqb (drive_name item) shared_drive_name
      then Some (drive_id item)
      else find_drive items'
  end.

Definition get_shared_drive_id : DM (option str) :=
  items <- lift (w_drives w) ;;
  match items with
  | [] => ret None
  | _ :: _ => ret (find_drive items)
  end.

Definition create_search_file_query : str :=
  py "modifiedTime > '" ++ w_yesterday w ++ py "' "
  ++ py "and (mimeType = 'text/csv')".

Definition get_files_from_drive (shared_drive_id : option str)
           (query fields : str) : DM (list drive_file) :=
  lift (w_files w shared_drive_id query fields).

Definition get_items_ids (shared_drive_id : option str)
  : DM (list drive_file) :=
  let query := create_search_file_query in
  let fields :=
    py "nextPageToken, files(id, name, mimeType, parents, trashed)" in
  get_files_from_drive shared_drive_id query fields.

Definition get_folders_ids (shared_drive_id : option str)
  : DM (list drive_file) :=
  let query := py "mimeType = 'application/vnd.google-apps.folder'" in
  let fields := py "nextPageToken, files(id, name)" in
  get_files_from_drive shared_drive_id query fields.

(** [df.rename(columns={old: new})] *)
Definition rename_column (old new : str) (df : dataframe) : dataframe :=
  {| df_columns :=
       map (fun c => if str_eqb c old then new else c) (df_columns df);
     df_rows := df_rows df |}.

(** [change_str_with_comma_to_float]: [df[column]] raises [KeyError]
    for a label the frame does not have; whether the values convert is
    the answer [a_astype]. *)
Definition change_str_with_comma_to_float (a : answers) (df : dataframe)
           (column : str) : res dataframe :=
  if str_in column (df_columns df)
  then res_bind (a_astype a) (fun _ => Ok df)
  else Raise (KeyError column).

Fixpoint prepare_columns_to_float (a : answers) (df : dataframe)
         (columns : list str) : res dataframe :=
  match columns with
  | [] => Ok df
  | column :: columns' =>
      res_bind (change_str_with_comma_to_float a df column)
               (fun df => prepare_columns_to_float a df columns')
  end.

Definition prepare_df_folder3 (a : answers) (df : dataframe)
  : res dataframe :=
  prepare_columns_to_float a df folder3_columns_to_float.

Definition prepare_df_folder12 (df : dataframe) : dataframe :=
  let df :=
    if str_in (py "[-] ") (df_columns df)
    then rename_column (py "[-] ") (py "[-]") df else df in
  let df :=
    if str_in (py "[+] ") (df_columns df)
    then rename_column (py "[+] ") (py "[+]") df else df in
  df.

(** [df['file'] = file_name]: a new last column unless the label is
    already there. *)
Definition set_file_column (df : dataframe) : dataframe :=
  if str_in (py "file") (df_columns df) then df
  else {| df_columns := df_columns df ++ [py "file"];
          df_rows := df_rows df |}.

(** [df.insert(0, 'ts_ms', ...)]: pandas refuses a label that exists. *)
Definition insert_ts_ms (df : dataframe) : res dataframe :=
  if str_in (py "ts_ms") (df_columns df)
  then Raise (ValueError (py "cannot insert ts_ms, already exists"))
  else Ok {| df_columns := py "ts_ms" :: df_columns df;
             df_rows := df_rows df |}.

(** [prepare_df] changes no state of the connector; it may raise.  The
    values of the two added columns (the file name, the wall-clock
    time) are not part of [dataframe]. *)
Definition prepare_df (a : answers) (df : dataframe)
           (file_name folder_name : str) : res dataframe :=
  res_bind (if str_in folder_name [py "folder_3"]
            then prepare_df_folder3 a df else Ok df)
    (fun df =>
       let df := if str_in folder_name [py "folder_1"; py "folder_2"]
                 then prepare_df_folder12 df else df in
       let df := set_file_column df in
       res_bind (insert_ts_ms df)
         (fun df =>
            Ok {| df_columns := clean_column_names table (df_columns df);
                  df_rows := df_rows df |})).

(** [str(error)] inside the f-string of [send_error_mail]; only a
    [ValueError] ever gets there, and its text is its message. *)
Definition exn_text (e : exn) : str :=
  match e with
  | ValueError msg => msg
  | _ => []
  end.

Definition error_subject : str :=
  py "Drive to BQ Upload: Error while loading file".

Definition send_error_mail (file_name folder_name : str) (error : exn)
  : DM unit :=
  let mail_subject := error_subject in
  let error_text :=
    py "Error while loading " ++ file_name ++ py " from " ++ folder_name
    ++ nl ++ py "Error: " ++ exn_text error in
  emit (EPrint error_text) ;;
  emit (EMail mail_subject error_text).

(** The handler of [except ValueError as error]. *)
Definition on_ValueError {A} (h : exn -> DM A) (e : exn) : option (DM A) :=
  match e with
  | ValueError _ => Some (h e)
  | _ => None
  end.

Definition upload_df_to_bq (a : answers) (df : dataframe)
           (folder_name file_name : str) : DM unit :=
  c <- get_counter ;;
  (if Z.eqb (c mod 5) 0 then emit (ESleep 10) else ret tt) ;;
  let table_id := dataset ++ py "." ++ folder_name in
  schema <- lift (create_schema table folder_name) ;;
  try_except
    (emit (ELoad table_id df schema) ;;
     lift (a_load a) ;;
     emit (EPrint (py "table " ++ table_id ++ py " uploaded to BQ.")))
    (on_ValueError (fun error => send_error_mail file_name folder_name error)) ;;
  incr_counter.

Definition df_empty (df : dataframe) : bool :=
  Nat.eqb (length (df_columns df)) 0 || Nat.eqb (df_rows df) 0.

(** [get_df_from_file_id]: the chunked download, its progress lines
    and [pd.read_csv] are the one action [EDownload], answered by
    [a_read_csv]. *)
Definition get_df_from_file_id (a : answers) (file_id file_name folder_name : str)
  : DM dataframe :=
  config <- lift (config_get folder_name) ;;
  let params := {|
    p_encoding := encoding config;
    p_skiprows := skip_rows config;
    p_parse_dates := date_cols config;
    p_dayfirst := dayfirst config;
    p_dtype := dtypes config;
    p_delimiter := default (py ",") (delimiter config);
    p_decimal := default (py ".") (decimal config) |} in
  emit (EDownload file_id params) ;;
  lift (a_read_csv a).

(** [upload_csv_to_bq]; [got] is [None] when the handler took its
    [return]. *)
Definition upload_csv_to_bq (a : answers) (folder_name file_name file_id : str)
  : DM unit :=
  emit (EPrint (py "Uploading, folder: " ++ folder_name
                ++ py ", file: " ++ file_name)) ;;
  got <- try_except
           (df <- get_df_from_file_id a file_id file_name folder_name ;;
            if df_empty df then raise (ValueError (py "CSV is empty!"))
            else ret (Some df))
           (on_ValueError (fun error =>
              send_error_mail file_name folder_name error ;; ret None)) ;;
  match got with
  | None => ret tt
  | Some df =>
      df <- lift (prepare_df a df file_name folder_name) ;;
      upload_df_to_bq a df folder_name file_name ;;
      files_added_append file_name
  end.

Definition dedup_query (folder_name file_name : str) : str :=
  nl ++ py "        SELECT `file`" ++ nl
  ++ py "        FROM `" ++ project ++ py "." ++ dataset ++ py "."
  ++ folder_name ++ py "`" ++ nl
  ++ py "        WHERE `file` = '" ++ file_name ++ py "'" ++ nl
  ++ py "        LIMIT 1;" ++ nl
  ++ py "        ".

(** [if_table_not_in_bq]: [True] means "not in BigQuery, proceed". *)
Definition if_table_not_in_bq (a : answers) (folder_name file_name : str)
  : DM bool :=
  let sql_query := dedup_query folder_name file_name in
  emit (EQuery sql_query) ;;
  lift (a_query a) ;;
  try_except
    (total_rows <- lift (a_result a) ;;
     if negb (Z.eqb total_rows 0) then ret false else ret true)
    (fun e => match e with NotFound => Some (ret true) | _ => None end).

Definition summary_subject : str :=
  py "Drive to BQ Upload: Transfer completed".
Definition no_file_subject : str :=
  py "Drive to BQ Upload: No file uploaded".
Definition no_file_text : str :=
  py "No file from Drive was added to BQ".

Definition send_confirmation_mail : DM unit :=
  added <- get_files_added ;;
  match added with
  | _ :: _ =>
      let files_added_txt := join nl added in
      let mail_text := py "Files added: " ++ nl ++ files_added_txt in
      let mail_subject := summary_subject in
      emit (EMail mail_subject mail_text)
  | [] =>
      let mail_text := no_file_text in
      let mail_subject := no_file_subject in
      emit (EMail mail_subject mail_text)
  end.

(** The body of the loop of [iterate_through_items]. *)
Definition process_item (folders_dict : gmap str str) (item : drive_file)
  : DM unit :=
  if d_trashed item then ret tt
  else
    match d_parents item with
    | [] => raise IndexError
    | parent :: _ =>
        match folders_dict !! parent with
        | Some ((_ :: _) as folder_name) =>
            let file_id := d_id item in
            let file_name := d_name item in
            if str_in folder_name all_folders then
              let folder_name := replace (py " ") (py "_") folder_name in
              proceed <- if_table_not_in_bq (d_answers item) folder_name file_name ;;
              if (proceed : bool)
              then upload_csv_to_bq (d_answers item) folder_name file_name file_id
              else ret tt
            else ret tt
        | _ => ret tt
        end
    end.

Definition iterate_through_items (items : list drive_file)
           (folders_dict : gmap str str) : DM unit :=
  for_each items (process_item folders_dict) ;;
  send_confirmation_mail.

(** [{d['id']: d['name'] for d in folders_ids}]: a later entry with the
    same id replaces an earlier one. *)
Definition make_folders_dict (folders_ids : list drive_file) : gmap str str :=
  fold_left (fun m d => <[d_id d := d_name d]> m) folders_ids ∅.

(** [run_transfer]: the [RuntimeError] for an empty listing is
    constructed and not raised. *)
Definition run_transfer : DM unit :=
  shared_drive_id <- get_shared_drive_id ;;
  folders_ids <- get_folders_ids shared_drive_id ;;
  let folders_dict := make_folders_dict folders_ids in
  items <- get_items_ids shared_drive_id ;;
  match items with
  | [] => ret tt
  | _ :: _ => iterate_through_items items folders_dict
  end.

End DriveConnector.

(** ** [StorageConnector] *)

(** An object of the bucket: its name, the bytes [gzip.open] yields for
    it (opening and decompressing are taken to succeed), and what the
    load job for it answers (the [num_rows] of the destination table
    afterwards, or the exception raised). *)
Record blob := {
  blob_name : str;
  blob_gunzip : list byte;
  blob_load : res Z
}.

(** What the storage connector does to the outside, in order. *)
Inductive sevent :=
| SPrint (text : str)
| SLoadJob (blob_uri table_id : str).

Abbreviation SM := (M (list sevent)).

Definition semit (e : sevent) : SM unit := fun s => (Ok tt, s ++ [e]).

(** Iterating a binary file: a line ends after each newline byte; bytes
    after the last newline form a last line. *)
Fixpoint readlines_scan (cur data : list byte) : list (list byte) :=
  match data with
  | [] => match cur with [] => [] | _ :: _ => [rev cur] end
  | b :: data' =>
      if Byte.eqb b x0a then rev (b :: cur) :: readlines_scan [] data'
      else readlines_scan (b :: cur) data'
  end.

Definition readlines (data : list byte) : list (list byte) :=
  readlines_scan [] data.

(** [enumerate(l)] *)
Definition enumerate {A} (l : list A) : list (Z * A) :=
  combine (map Z.of_nat (seq 0 (length l))) l.

Section StorageConnector.

Variable bucket_name : str.
Variable project_name : str.
Variable dataset : str.
Variable tables_to_skip : list str.

(** [self.bucket.list_blobs(prefix=year)] *)
Variable list_blobs : str -> res (list blob).

Definition get_uri_from_blob (b : blob) : str :=
  py "gs://" ++ bucket_name ++ py "/" ++ blob_name b.

(** [blob.name.split("/")[1].split(".")[0]] *)
Definition get_table_name_from_blob (b : blob) : res str :=
  match split 47 (blob_name b) with
  | _ :: second :: _ =>
      match split 46 second with
      | first :: _ => Ok first
      | [] => Raise IndexError
      end
  | _ => Raise IndexError
  end.

Definition upload_data_to_bq (b : blob) (blob_uri table_name : str) : SM Z :=
  let table_id := project_name ++ py "." ++ dataset ++ py "." ++ table_name in
  semit (SLoadJob blob_uri table_id) ;;
  lift (blob_load b).

Fixpoint check_if_table_to_skip (to_skip : list str) (table_name : str)
  : bool :=
  match to_skip with
  | [] => false
  | t_to_skip :: to_skip' =>
      if contains t_to_skip table_name then true
      else check_if_table_to_skip to_skip' table_name
  end.

(** [count_lines]: the loop leaves in [lines] the index of the last
    line; with no line at all [lines] is never bound. *)
Definition count_lines (b : blob) : SM Z :=
  let lines :=
    fold_left (fun (_ : option Z) (il : Z * list byte) => Some (fst il))
              (enumerate (readlines (blob_gunzip b))) None in
  match lines with
  | None => raise UnboundLocalError
  | Some lines =>
      semit (SPrint (py "Rows counted: " ++ py " " ++ str_of_int lines)) ;;
      ret lines
  end.

Definition loaded_text (rows_loaded : Z) : str :=
  py "Loaded " ++ str_of_int rows_loaded ++ py " rows.".

Definition different_text (rows_loaded lines : Z) : str :=
  py "Different number of rows!! Loaded: " ++ str_of_int rows_loaded
  ++ py "vs from csv: " ++ str_of_int lines.

Definition check_if_all_rows_uploaded (b : blob) (blob_uri table_name : str)
  : SM unit :=
  rows_loaded <- upload_data_to_bq b blob_uri table_name ;;
  lines <- count_lines b ;;
  if Z.eqb rows_loaded lines
  then semit (SPrint (loaded_text rows_loaded))
  else semit (SPrint (different_text rows_loaded lines)).

(** The body of the inner loop of [load_data_from_storage]. *)
Definition load_blob (b : blob) : SM unit :=
  let blob_uri := get_uri_from_blob b in
  table_name <- lift (get_table_name_from_blob b) ;;
  let to_skip := check_if_table_to_skip tables_to_skip table_name in
  if to_skip then semit (SPrint (table_name ++ py " skipped"))
  else
    try_except
      (check_if_all_rows_uploaded b blob_uri table_name)
      (fun e => match e with
                | BadRequest msg =>
                    Some (semit (SPrint (table_name
                                         ++ py " skipped, because of error: "
                                         ++ msg)))
                | _ => None
                end).

Definition load_data_from_storage (years : list str) : SM unit :=
  for_each years (fun year =>
    blobs <- lift (list_blobs year) ;;
    for_each blobs load_blob).

End StorageConnector.

(** ** Notions used in the statements *)

(** The code points of [chars_to_replace]. *)
Definition bad_chars : list N := [32; 37; 45; 40; 41; 91; 93; 47]%N.

Definition ascii_only (s : str) : bool := forallb (fun c => N.ltb c 128) s.

(** Replacing one character by another, character by character. *)
Definition subst_char (c u : N) (s : str) : str :=
  map (fun x => if N.eqb x c then u else x) s.

(** The loop over [chars_to_replace], on any list of characters. *)
Definition replace_chars (u : N) (cs : list N) (s : str) : str :=
  fold_left (fun s char => replace char [u] s) (map (fun c => [c]) cs) s.

(** [clean_column_str] before the transliteration. *)
Definition replace_all (column : str) : str :=
  replace_chars 95 bad_chars
    (replace (py "[-]") (py "minus") (replace (py "[+]") (py "plus") column)).

(** The declared type of a column after the folder-specific override of
    [create_schema]. *)
Definition overridden_type (folder_name : str) (item : str * pytype) : pytype :=
  if str_eqb folder_name (py "folder_3")
     && str_in (fst item) folder3_columns_to_float
  then PyFloat else snd item.

(** The declared type is a key of [bq_types_mapping]. *)
Definition mapped_type (t : pytype) : bool :=
  match bq_types_mapping t with
  | Some _ => true
  | None => false
  end.

(** The date columns of an entry, none when the key is absent. *)
Definition date_cols_list (cfg : config) : list str :=
  default [] (date_cols cfg).

(** What [create_schema] makes of one declared column. *)
Definition column_field_of (table : N -> str) (folder_name : str)
           (item : str * pytype) (f : field) : Prop :=
  f_name f = clean_column_str table (fst item)
  /\ bq_types_mapping (overridden_type folder_name item) = Some (f_type f)
  /\ f_description f = fst item.

(** The declared types the type table of the design names: integer,
    text, real and boolean. *)
Definition table_type (t : pytype) : bool :=
  match t with
  | PyInt | PyStr | PyFloat | PyBool => true
  | PyOther _ => false
  end.

(** The field the design derives from one declared column: the cleaned
    label as name, the label as declared as description, and as type
    INT64 for an integer column, STRING for text, FLOAT64 for a real and
    BOOLEAN for a boolean, the declared type being taken after the
    folder-specific override. *)
Definition typed_field_of (table : N -> str) (folder_name : str)
           (item : str * pytype) (f : field) : Prop :=
  f_name f = clean_column_str table (fst item)
  /\ f_description f = fst item
  /\ match overridden_type folder_name item with
     | PyInt => f_type f = py "INT64"
     | PyStr => f_type f = py "STRING"
     | PyFloat => f_type f = py "FLOAT64"
     | PyBool => f_type f = py "BOOLEAN"
     | PyOther _ => False
     end.

(** The state with more actions logged. *)
Definition add_log (s : state) (evs : list event) : state :=
  {| files_added := files_added s; counter := counter s; log := log s ++ evs |}.

(** What [self.counter] reads in a state. *)
Definition self_counter (s : state) : Z := default class_counter (counter s).

(** The state after [self.counter += 1]. *)
Definition bump_counter (s : state) : state :=
  {| files_added := files_added s;
     counter := Some (self_counter s + 1)%Z;
     log := log s |}.

(** The state after [self.files_added.append(file_name)]. *)
Definition add_file (s : state) (file_name : str) : state :=
  {| files_added := files_added s ++ [file_name];
     counter := counter s;
     log := log s |}.

(** The delay [upload_df_to_bq] takes when the counter reads [c]. *)
Definition delay_at (c : Z) : list event :=
  if Z.eqb (c mod 5) 0 then [ESleep 10] else [].

(** What the dedup gate returns or raises, given the answers of the
    query. *)
Definition gate_result (a : answers) : res bool :=
  match a_query a with
  | Raise e => Raise e
  | Ok _ =>
      match a_result a with
      | Ok total_rows => Ok (Z.eqb total_rows 0)
      | Raise NotFound => Ok true
      | Raise e => Raise e
      end
  end.

(** The text and the two actions of [send_error_mail]. *)
Definition error_text (file_name folder_name : str) (error : exn) : str :=
  py "Error while loading " ++ file_name ++ py " from " ++ folder_name
  ++ nl ++ py "Error: " ++ exn_text error.

Definition error_events (file_name folder_name : str) (error : exn)
  : list event :=
  [ EPrint (error_text file_name folder_name error);
    EMail error_subject (error_text file_name folder_name error) ].

(** The keyword arguments [get_df_from_file_id] builds from an entry. *)
Definition params_of (cfg : config) : read_csv_params :=
  {| p_encoding := encoding cfg;
     p_skiprows := skip_rows cfg;
     p_parse_dates := date_cols cfg;
     p_dayfirst := dayfirst cfg;
     p_dtype := dtypes cfg;
     p_delimiter := default (py ",") (delimiter cfg);
     p_decimal := default (py ".") (decimal cfg) |}.

Definition uploading_text (folder_name file_name : str) : str :=
  py "Uploading, folder: " ++ folder_name ++ py ", file: " ++ file_name.

Definition uploaded_text (table_id : str) : str :=
  py "table " ++ table_id ++ py " uploaded to BQ.".

(** *** Outcomes of processing one file *)

(** Where an exception that nothing catches was raised. *)
Inductive stage := AtParents | AtQuery | AtRead | AtPrepare | AtLoad.

(** The outcome of one file: the five outcomes of the design, the case of
    a [ValueError] raised while the file is read (handled like the empty
    file), and the exception that escapes. *)
Inductive outcome :=
| Loaded
| SkippedAlreadyPresent
| SkippedEmpty
| SkippedReadError (msg : str)
| SkippedLoadError (msg : str)
| SkippedFilteredOut
| Aborted (st : stage) (e : exn).

Section Outcomes.

Variable table : N -> str.

(** The outcome of a file that passed the dedup gate, read off the
    answers of the services. *)
Definition classify_upload (a : answers) (folder_name file_name : str)
  : outcome :=
  match a_read_csv a with
  | Raise (ValueError msg) => SkippedReadError msg
  | Raise e => Aborted AtRead e
  | Ok df =>
      if df_empty df then SkippedEmpty
      else
        match prepare_df table a df file_name folder_name with
        | Raise e => Aborted AtPrepare e
        | Ok _ =>
            match a_load a with
            | Ok _ => Loaded
            | Raise (ValueError msg) => SkippedLoadError msg
            | Raise e => Aborted AtLoad e
            end
        end
  end.

(** The outcome of a listed file, given the folder dictionary. *)
Definition classify (folders_dict : gmap str str) (item : drive_file)
  : outcome :=
  if d_trashed item then SkippedFilteredOut
  else
    match d_parents item with
    | [] => Aborted AtParents IndexError
    | parent :: _ =>
        match folders_dict !! parent with
        | Some ((_ :: _) as folder_name) =>
            if str_in folder_name all_folders then
              match gate_result (d_answers item) with
              | Raise e => Aborted AtQuery e
              | Ok false => SkippedAlreadyPresent
              | Ok true =>
                  classify_upload (d_answers item)
                    (replace (py " ") (py "_") folder_name) (d_name item)
              end
            else SkippedFilteredOut
        | _ => SkippedFilteredOut
        end
    end.

End Outcomes.

Definition result_of (o : outcome) : res unit :=
  match o with
  | Aborted _ e => Raise e
  | _ => Ok tt
  end.

Definition aborted (o : outcome) : bool :=
  match o with
  | Aborted _ _ => true
  | _ => false
  end.

(** The outcomes after which the file name is in [files_added]. *)
Definition recorded (o : outcome) : bool :=
  match o with
  | Loaded | SkippedLoadError _ => true
  | _ => false
  end.

(** The outcomes in which the load was attempted. *)
Definition attempted (o : outcome) : bool :=
  match o with
  | Loaded | SkippedLoadError _ | Aborted AtLoad _ => true
  | _ => false
  end.

(** The error a per-file notification reports, if one is sent. *)
Definition notified (o : outcome) : option exn :=
  match o with
  | SkippedEmpty => Some (ValueError (py "CSV is empty!"))
  | SkippedReadError msg | SkippedLoadError msg => Some (ValueError msg)
  | _ => None
  end.

(** *** Views of the log *)

(** The end-of-run notifications, by their subject. *)
Definition is_summary (e : event) : bool :=
  match e with
  | EMail subject _ =>
      str_eqb subject summary_subject || str_eqb subject no_file_subject
  | _ => false
  end.

Definition is_mail (e : event) : bool :=
  match e with
  | EMail _ _ => true
  | _ => false
  end.

Definition is_load (e : event) : bool :=
  match e with
  | ELoad _ _ _ => true
  | _ => false
  end.

(** The delays and load attempts of a log, in order. *)
Inductive tick := Delay (seconds : Z) | Attempt.

Definition tick_of (e : event) : option tick :=
  match e with
  | ESleep seconds => Some (Delay seconds)
  | ELoad _ _ _ => Some Attempt
  | _ => None
  end.

Definition throttle_trace (l : list event) : list tick := omap tick_of l.

(** The ticks of one load attempt made when the counter reads [c]. *)
Definition ticks_at (c : Z) : list tick :=
  (if Z.eqb (c mod 5) 0 then [Delay 10] else []) ++ [Attempt].

(** The ticks of [n] load attempts, the first made when the counter
    reads [c]: a delay of 10 before each attempt whose number is a
    multiple of 5, and nothing else. *)
Fixpoint throttle_pattern (c : Z) (n : nat) : list tick :=
  match n with
  | O => []
  | S n' => ticks_at c ++ throttle_pattern (c + 1) n'
  end.

(** Every delay of the log is immediately followed by a load attempt. *)
Fixpoint delays_precede_loads (l : list event) : bool :=
  match l with
  | [] => true
  | ESleep _ :: rest =>
      match rest with
      | ELoad _ _ _ :: _ => delays_precede_loads rest
      | _ => false
      end
  | _ :: rest => delays_precede_loads rest
  end.

(** The subject and body [send_confirmation_mail] sends for a list of
    recorded names. *)
Definition summary_mail (added : list str) : event :=
  match added with
  | [] => EMail no_file_subject no_file_text
  | _ :: _ => EMail summary_subject (py "Files added: " ++ nl ++ join nl added)
  end.

(** No end-of-run notification among the actions. *)
Definition no_summary (l : list event) : bool :=
  forallb (fun e => negb (is_summary e)) l.

Fixpoint count_attempts (ticks : list tick) : nat :=
  match ticks with
  | [] => O
  | Attempt :: ticks' => S (count_attempts ticks')
  | Delay _ :: ticks' => count_attempts ticks'
  end.

(** The number of load attempts in a log. *)
Definition attempts (l : list event) : nat := count_attempts (throttle_trace l).

(** What a loop over files with these outcomes returns: the first
    exception that escapes, if any. *)
Fixpoint first_abort (os : list outcome) : res unit :=
  match os with
  | [] => Ok tt
  | o :: os' =>
      match result_of o with
      | Ok _ => first_abort os'
      | Raise e => Raise e
      end
  end.

(** The names of the files of a listing whose outcome satisfies [keep]. *)
Definition names_with (table : N -> str) (folders_dict : gmap str str)
           (keep : outcome -> bool) (items : list drive_file) : list str :=
  map d_name (List.filter (fun item => keep (classify table folders_dict item)) items).

(** *** Discovery *)

(** The three listing calls of [run_transfer], in order: the drives, the
    folders, the files.  The result is the folder listing and the file
    listing, or the exception of the first call that fails. *)
Definition discovery (shared_drive_name : str) (w : world)
  : res (list drive_file * list drive_file) :=
  res_bind (w_drives w) (fun drives =>
    let shared_drive_id := find_drive shared_drive_name drives in
    res_bind (w_files w shared_drive_id
                (py "mimeType = 'application/vnd.google-apps.folder'")
                (py "nextPageToken, files(id, name)"))
      (fun folders_ids =>
         res_bind (w_files w shared_drive_id (create_search_file_query w)
                     (py "nextPageToken, files(id, name, mimeType, parents, trashed)"))
           (fun items => Ok (folders_ids, items)))).

(** A load that raises [ValueError]. *)
Definition load_errored (o : outcome) : bool :=
  match o with
  | SkippedLoadError _ => true
  | _ => false
  end.

Definition is_loaded (o : outcome) : bool :=
  match o with
  | Loaded => true
  | _ => false
  end.

(** The end-of-run notifications of a log. *)
Definition summaries (l : list event) : list event := List.filter is_summary l.

(** The ticks of load attempts number [1] to [n] of a connector whose
    counter starts at [1]: attempt [k] is preceded by the delay exactly
    when [k] is a multiple of 5. *)
Definition every_fifth (n : nat) : list tick :=
  flat_map (fun k => (if Z.eqb (Z.of_nat k mod 5) 0 then [Delay 10] else [])
                     ++ [Attempt])
           (seq 1 n).

(** *** Example runs *)

(** The answers for a new, well-formed file: the destination table does
    not exist yet, the file parses to three rows, the load succeeds. *)
Definition new_file_answers : answers := {|
  a_query := Ok tt;
  a_result := Raise NotFound;
  a_read_csv := Ok {| df_columns := [py "column_1"; py "column_2"; py "column_3";
                                     py "column_4"; py "column_5"; py "column_6";
                                     py "column_7"; py "col_date"];
                      df_rows := 3 |};
  a_astype := Ok tt;
  a_load := Ok tt
|}.

(** A file named [name] in the folder with id [F1], which is folder_1. *)
Definition file_named (name : string) (a : answers) : drive_file := {|
  d_id := py "id-" ++ py name;
  d_name := py name;
  d_parents := [py "F1"];
  d_trashed := false;
  d_answers := a
|}.

Definition folder_entry (id name : string) : drive_file := {|
  d_id := py id;
  d_name := py name;
  d_parents := [];
  d_trashed := false;
  d_answers := new_file_answers
|}.

(** A shared drive named "shared" with the three folders, listing
    [items] as the files modified since yesterday. *)
Definition world_with (items : list drive_file) : world := {|
  w_drives := Ok [ {| drive_name := py "shared"; drive_id := py "D1" |} ];
  w_files := fun shared_drive_id query fields =>
    if startswith (py "mimeType") query
    then Ok [folder_entry "F1" "folder_1"; folder_entry "F2" "folder_2";
             folder_entry "F3" "folder_3"]
    else Ok items;
  w_yesterday := py "2024-05-01T00:00:00"
|}.

(** A run of a newly constructed connector on that drive, in a process
    whose state is [s]. *)
Definition example_run (items : list drive_file) (s : state) : res unit * state :=
  run_transfer unidecode_excerpt (py "shared") (py "ds") (py "proj")
               (world_with items) (new_instance s).

(** The dedup query fails with an error other than [NotFound]. *)
Definition query_error_answers : answers := {|
  a_query := Ok tt;
  a_result := Raise (OtherError (py "backend error"));
  a_read_csv := a_read_csv new_file_answers;
  a_astype := Ok tt;
  a_load := Ok tt
|}.

(** The load raises [ValueError]. *)
Definition load_error_answers : answers := {|
  a_query := Ok tt;
  a_result := Raise NotFound;
  a_read_csv := a_read_csv new_file_answers;
  a_astype := Ok tt;
  a_load := Raise (ValueError (py "bad shape"))
|}.

(** The file parses to a table with no row. *)
Definition empty_file_answers : answers := {|
  a_query := Ok tt;
  a_result := Raise NotFound;
  a_read_csv := Ok {| df_columns := [py "column_1"]; df_rows := 0 |};
  a_astype := Ok tt;
  a_load := Ok tt
|}.

(** The file is already in the destination table. *)
Definition present_answers : answers := {|
  a_query := Ok tt;
  a_result := Ok 1%Z;
  a_read_csv := a_read_csv new_file_answers;
  a_astype := Ok tt;
  a_load := Ok tt
|}.

(** *** The storage connector *)

(** The number of newline-delimited records of the decompressed object. *)
Definition records_of (b : blob) : Z :=
  Z.of_nat (length (readlines (blob_gunzip b))).

(** [enumerate(l, start)] *)
Definition enumerate_from {A} (start : nat) (l : list A) : list (Z * A) :=
  combine (map Z.of_nat (seq start (length l))) l.

Definition rows_counted_text (lines : Z) : str :=
  py "Rows counted: " ++ py " " ++ str_of_int lines.

(** A gzip object of the bucket with a header line and two records; the
    load job reports two rows. *)
Definition example_blob : blob := {|
  blob_name := py "2019/events.csv.gz";
  blob_gunzip := list_byte_of_string "id;v" ++ [x0a]
                 ++ list_byte_of_string "1;a" ++ [x0a]
                 ++ list_byte_of_string "2;b" ++ [x0a];
  blob_load := Ok 2%Z
|}.

(** The same object when the destination table ends up with five rows. *)
Definition mismatch_blob : blob := {|
  blob_name := py "2019/events.csv.gz";
  blob_gunzip := blob_gunzip example_blob;
  blob_load := Ok 5%Z
|}.

Definition empty_blob : blob := {|
  blob_name := py "2019/nothing.csv.gz";
  blob_gunzip := [];
  blob_load := Ok 0%Z
|}.

(** *** More example runs of the drive connector *)

(** The download fails with an exception that is not a [ValueError]. *)
Definition download_error_answers : answers := {|
  a_query := Ok tt;
  a_result := Raise NotFound;
  a_read_csv := Raise (OtherError (py "download failed"));
  a_astype := Ok tt;
  a_load := Ok tt
|}.

Definition four_new_files : list drive_file :=
  [ file_named "a.csv" new_file_answers; file_named "b.csv" new_file_answers;
    file_named "c.csv" new_file_answers; file_named "d.csv" new_file_answers ].

(** The mails of a log, as pairs of subject and body. *)
Definition mails (l : list event) : list (str * str) :=
  omap (fun e => match e with
                 | EMail subject body => Some (subject, body)
                 | _ => None
                 end) l.

(** *** Further notions used in the statements *)

(** A replacement text that is ASCII and holds none of the characters
    of [chars_to_replace]. *)
Definition clean_text (s : str) : bool :=
  forallb (fun x => N.ltb x 128 && negb (bool_decide (x ∈ bad_chars))) s.

(** Every character of [column] outside ASCII has such a replacement
    text in the transliteration table. *)
Definition transliterates_cleanly (table : N -> str) (column : str) : bool :=
  forallb (fun c => N.ltb c 128 || clean_text (table c)) column.

(** The folder name under which a listed file is looked up: the name the
    folder dictionary gives for its first parent. *)
Definition item_folder (folders_dict : gmap str str) (item : drive_file) : str :=
  match d_parents item with
  | parent :: _ => default [] (folders_dict !! parent)
  | [] => []
  end.

(** The number of newline bytes of some content. *)
Fixpoint count_newlines (data : list byte) : nat :=
  match data with
  | [] => O
  | b :: data' =>
      (if Byte.eqb b x0a then 1 else 0) + count_newlines data'
  end.

(** Whether some content ends with bytes that no newline terminates. *)
Definition open_last_line (data : list byte) : nat :=
  match last data with
  | Some b => if Byte.eqb b x0a then 0 else 1
  | None => 0
  end.

(** * Properties *)

(** ** Strings *)

Example replace_overlap : replace (py "aa") (py "b") (py "aaaaa") = py "bba".
Proof. reflexivity. Qed.

Example replace_empty_old : replace [] (py "-") (py "ab") = py "-a-b-".
Proof. reflexivity. Qed.

Example split_blob_name :
  split 47 (py "2019/events.csv.gz") = [py "2019"; py "events.csv.gz"].
Proof. reflexivity. Qed.

Example join_two : join nl [py "a.csv"; py "b.csv"] = py "a.csv" ++ nl ++ py "b.csv".
Proof. reflexivity. Qed.

Lemma chars_to_replace_bad_chars :
  chars_to_replace = map (fun c => [c]) bad_chars.
Proof. reflexivity. Qed.

Lemma replace_single (c u : N) (s : str) :
  replace [c] [u] s = subst_char c u s.
Proof.
  unfold replace.
  induction s as [|x s IH]; [reflexivity|].
  cbn [replace_scan startswith length Nat.pred subst_char map].
  rewrite N.eqb_sym. destruct (N.eqb x c); cbn.
  - f_equal. destruct s; exact IH.
  - f_equal. exact IH.
Qed.

(** A string in which the first character of [old] does not occur is left
    as it is. *)
Lemma replace_absent (c : N) (old new s : str) :
  c ∉ s -> replace (c :: old) new s = s.
Proof.
  unfold replace.
  induction s as [|x s IH]; intros Hc; [reflexivity|].
  cbn [replace_scan startswith].
  apply not_elem_of_cons in Hc as [Hx Hs].
  destruct (N.eqb_spec c x) as [->|_]; [congruence|].
  cbn. f_equal. auto.
Qed.

Lemma subst_char_absent_self (c u : N) (s : str) :
  c <> u -> c ∉ subst_char c u s.
Proof.
  intros Hcu Hin. unfold subst_char in Hin.
  apply list_elem_of_fmap in Hin as (x & Hx & _).
  destruct (N.eqb_spec x c); congruence.
Qed.

Lemma subst_char_absent_other (c d u : N) (s : str) :
  d ∉ s -> d <> u -> d ∉ subst_char c u s.
Proof.
  intros Hd Hdu Hin. unfold subst_char in Hin.
  apply list_elem_of_fmap in Hin as (x & Hx & Hxs).
  destruct (N.eqb_spec x c); congruence.
Qed.

Lemma replace_chars_keeps_absent (u d : N) (cs : list N) (s : str) :
  d ∉ s -> d <> u -> d ∉ replace_chars u cs s.
Proof.
  unfold replace_chars.
  revert s. induction cs as [|c cs IH]; intros s Hd Hdu; [exact Hd|].
  cbn [map fold_left]. apply IH; [|exact Hdu].
  rewrite replace_single. by apply subst_char_absent_other.
Qed.

Lemma replace_chars_removes (u c : N) (cs : list N) (s : str) :
  u ∉ cs -> c ∈ cs -> c ∉ replace_chars u cs s.
Proof.
  revert s. induction cs as [|c0 cs IH]; intros s Hu Hc.
  - by apply elem_of_nil in Hc.
  - apply not_elem_of_cons in Hu as [Hu0 Hu].
    unfold replace_chars. cbn [map fold_left]. rewrite replace_single.
    apply elem_of_cons in Hc as [->|Hc].
    + apply (replace_chars_keeps_absent u c0 cs); [|congruence].
      apply subst_char_absent_self. congruence.
    + apply (IH (subst_char c0 u s)); assumption.
Qed.

Lemma replace_chars_id (u : N) (cs : list N) (s : str) :
  (forall c, c ∈ cs -> c ∉ s) -> replace_chars u cs s = s.
Proof.
  unfold replace_chars.
  induction cs as [|c cs IH]; intros H; [reflexivity|].
  cbn [map fold_left].
  rewrite (replace_absent c [] [u] s) by (apply H; left).
  apply IH. intros d Hd. apply H. by right.
Qed.

Lemma ascii_only_app (a b : str) :
  ascii_only (a ++ b) = ascii_only a && ascii_only b.
Proof. apply forallb_app. Qed.

Lemma replace_scan_ascii (old new : str) (k : nat) (s : str) :
  ascii_only new = true -> ascii_only s = true ->
  ascii_only (replace_scan old new k s) = true.
Proof.
  intros Hnew. revert k.
  induction s as [|x s IH]; intros k Hs; [reflexivity|].
  cbn in Hs. apply andb_true_iff in Hs as [Hx Hs].
  cbn [replace_scan]. destruct k as [|k]; [|by apply IH].
  destruct (startswith old (x :: s)).
  - rewrite ascii_only_app, Hnew. by apply IH.
  - cbn. rewrite Hx. by apply IH.
Qed.

Lemma replace_ascii (c : N) (old new s : str) :
  ascii_only new = true -> ascii_only s = true ->
  ascii_only (replace (c :: old) new s) = true.
Proof. apply replace_scan_ascii. Qed.

Lemma replace_chars_ascii (u : N) (cs : list N) (s : str) :
  ascii_only [u] = true -> ascii_only s = true ->
  ascii_only (replace_chars u cs s) = true.
Proof.
  unfold replace_chars. intros Hu.
  revert s. induction cs as [|c cs IH]; intros s Hs; [exact Hs|].
  cbn [map fold_left]. apply IH. by apply replace_ascii.
Qed.

Lemma bad_char_iff (c : N) : [c] ∈ chars_to_replace <-> c ∈ bad_chars.
Proof.
  rewrite chars_to_replace_bad_chars, list_elem_of_fmap. split.
  - intros (x & [= ->] & Hx). exact Hx.
  - intros Hc. by exists c.
Qed.

Lemma ascii_only_forall (s : str) :
  ascii_only s = true <-> forall x, x ∈ s -> N.ltb x 128 = true.
Proof.
  unfold ascii_only. rewrite forallb_forall. split.
  - intros H x Hx. apply H. by apply list_elem_of_In.
  - intros H x Hx. apply H. by apply list_elem_of_In.
Qed.

Lemma elem_of_unidecode (table : N -> str) (x : N) (s : str) :
  x ∈ unidecode table s ->
  (x ∈ s /\ N.ltb x 128 = true)
  \/ (exists c, c ∈ s /\ N.ltb c 128 = false /\ x ∈ table c).
Proof.
  unfold unidecode. induction s as [|c s IH]; cbn [flat_map].
  - intros H. by apply elem_of_nil in H.
  - intros H. apply elem_of_app in H as [H|H].
    + destruct (N.ltb c 128) eqn:Hc.
      * apply list_elem_of_singleton in H as ->. left. split; [left|exact Hc].
      * right. exists c. split; [left|]. split; [exact Hc|exact H].
    + destruct (IH H) as [[Hx Hlt]|(c' & Hc' & Hhigh & Hx)].
      * left. split; [by right|exact Hlt].
      * right. exists c'. split; [by right|]. split; [exact Hhigh|exact Hx].
Qed.

(** What [replace] returns is made of characters of [new] and of [s]. *)
Lemma elem_of_replace_scan (old new : str) (k : nat) (s : str) (x : N) :
  x ∈ replace_scan old new k s -> x ∈ new \/ x ∈ s.
Proof.
  revert k. induction s as [|c s IH]; intros k Hx.
  - by apply elem_of_nil in Hx.
  - cbn [replace_scan] in Hx. destruct k as [|k].
    + destruct (startswith old (c :: s)).
      * apply elem_of_app in Hx as [Hx|Hx]; [by left|].
        destruct (IH _ Hx) as [H|H]; [by left|right; by right].
      * apply elem_of_cons in Hx as [->|Hx]; [right; left|].
        destruct (IH _ Hx) as [H|H]; [by left|right; by right].
    + destruct (IH _ Hx) as [H|H]; [by left|right; by right].
Qed.

Lemma elem_of_replace_chars (u : N) (cs : list N) (s : str) (x : N) :
  x ∈ replace_chars u cs s -> x = u \/ x ∈ s.
Proof.
  unfold replace_chars.
  revert s. induction cs as [|c cs IH]; intros s Hx; [by right|].
  cbn [map fold_left] in Hx.
  destruct (IH _ Hx) as [H|H]; [by left|].
  apply (elem_of_replace_scan [c] [u] 0 s) in H as [H|H]; [|by right].
  left. by apply list_elem_of_singleton in H.
Qed.

(** The three replacement steps bring in ASCII characters only. *)
Lemma replace_all_high (column : str) (x : N) :
  x ∈ replace_all column -> N.ltb x 128 = false -> x ∈ column.
Proof.
  intros Hx Hhigh. unfold replace_all in Hx.
  assert (Hascii : forall t : str, ascii_only t = true -> x ∉ t).
  { intros t Ht Hin.
    rewrite (proj1 (ascii_only_forall t) Ht x Hin) in Hhigh. discriminate. }
  apply elem_of_replace_chars in Hx as [->|Hx]; [discriminate|].
  apply (elem_of_replace_scan (py "[-]") (py "minus") 0) in Hx as [Hx|Hx].
  { by apply (Hascii (py "minus")) in Hx. }
  apply (elem_of_replace_scan (py "[+]") (py "plus") 0) in Hx as [Hx|Hx].
  { by apply (Hascii (py "plus")) in Hx. }
  exact Hx.
Qed.

Lemma clean_text_spec (s : str) :
  clean_text s = true
  <-> forall x, x ∈ s -> N.ltb x 128 = true /\ (x ∉ bad_chars).
Proof.
  unfold clean_text. rewrite forallb_forall. split.
  - intros H x Hx. apply list_elem_of_In, H in Hx.
    apply andb_true_iff in Hx as [Hlt Hbad]. split; [exact Hlt|].
    apply negb_true_iff, bool_decide_eq_false in Hbad. exact Hbad.
  - intros H x Hx. apply list_elem_of_In, H in Hx as [Hlt Hbad].
    rewrite Hlt. cbn. apply negb_true_iff, bool_decide_eq_false. exact Hbad.
Qed.

Lemma transliterates_cleanly_spec (table : N -> str) (column : str) :
  transliterates_cleanly table column = true
  <-> forall c, c ∈ column -> N.ltb c 128 = false -> clean_text (table c) = true.
Proof.
  unfold transliterates_cleanly. rewrite forallb_forall. split.
  - intros H c Hc Hhigh. apply list_elem_of_In, H in Hc.
    rewrite Hhigh in Hc. exact Hc.
  - intros H c Hc. destruct (N.ltb c 128) eqn:Hlt; [reflexivity|].
    apply H; [by apply list_elem_of_In|exact Hlt].
Qed.


Section Cleaning.

Variable table : N -> str.

Lemma unidecode_ascii (s : str) :
  ascii_only s = true -> unidecode table s = s.
Proof.
  unfold unidecode.
  induction s as [|x s IH]; intros Hs; [reflexivity|].
  cbn in Hs. apply andb_true_iff in Hs as [Hx Hs].
  cbn [flat_map]. rewrite Hx, IH by exact Hs. reflexivity.
Qed.

Lemma clean_column_str_unfold (column : str) :
  clean_column_str table column = unidecode table (replace_all column).
Proof. reflexivity. Qed.

Lemma replace_all_no_bad (column : str) (c : N) :
  c ∈ bad_chars -> c ∉ replace_all column.
Proof.
  intros Hc. apply replace_chars_removes; [|exact Hc].
  apply (bool_decide_unpack _). reflexivity.
Qed.

Lemma replace_all_ascii (column : str) :
  ascii_only column = true -> ascii_only (replace_all column) = true.
Proof.
  intros H. unfold replace_all.
  apply replace_chars_ascii; [reflexivity|].
  apply replace_ascii; [reflexivity|].
  apply replace_ascii; [reflexivity|exact H].
Qed.

(** A string without any of the characters to replace is left as it is
    by the three replacement steps. *)
Lemma replace_all_id (s : str) :
  (forall c, c ∈ bad_chars -> c ∉ s) -> replace_all s = s.
Proof.
  intros H. unfold replace_all.
  assert (H91 : 91%N ∉ s).
  { apply H. apply (bool_decide_unpack _). reflexivity. }
  change (py "[+]") with (91%N :: py "+]").
  change (py "[-]") with (91%N :: py "-]").
  rewrite (replace_absent 91 (py "+]") (py "plus") s) by exact H91.
  rewrite (replace_absent 91 (py "-]") (py "minus") s) by exact H91.
  by apply replace_chars_id.
Qed.

Lemma clean_column_str_stable (s : str) :
  ascii_only s = true -> (forall c, c ∈ bad_chars -> c ∉ s) ->
  clean_column_str table s = s.
Proof.
  intros Ha Hb.
  rewrite clean_column_str_unfold, replace_all_id by exact Hb.
  by apply unidecode_ascii.
Qed.

Lemma fold_map_columns (u : str) (cs : list str) (columns : list str) :
  fold_left (fun columns char => map (replace char u) columns) cs columns
  = map (fun column => fold_left (fun column char => replace char u column)
                                 cs column) columns.
Proof.
  revert columns. induction cs as [|c cs IH]; intros columns.
  - cbn. by rewrite map_id.
  - cbn [fold_left]. rewrite IH, map_map. reflexivity.
Qed.

Lemma clean_column_names_map (columns : list str) :
  clean_column_names table columns = map (clean_column_str table) columns.
Proof.
  unfold clean_column_names, clean_column_str.
  rewrite fold_map_columns, !map_map. reflexivity.
Qed.

(** The cleaned name of a column whose characters outside ASCII have
    clean replacement texts: ASCII, and none of the characters to
    replace. *)
Lemma clean_column_str_clean (column : str) :
  transliterates_cleanly table column = true ->
  ascii_only (clean_column_str table column) = true
  /\ forall c, c ∈ bad_chars -> c ∉ clean_column_str table column.
Proof.
  intros Hclean.
  assert (Hchar : forall x, x ∈ clean_column_str table column ->
                    N.ltb x 128 = true /\ (x ∉ bad_chars)).
  { intros x Hx. rewrite clean_column_str_unfold in Hx.
    apply elem_of_unidecode in Hx as [[Hx Hlt]|(c & Hc & Hhigh & Hx)].
    - split; [exact Hlt|]. intros Hbad.
      by apply (replace_all_no_bad column x Hbad).
    - apply replace_all_high in Hc; [|exact Hhigh].
      pose proof (proj1 (transliterates_cleanly_spec table column)
                    Hclean c Hc Hhigh) as Htext.
      by apply (proj1 (clean_text_spec (table c)) Htext). }
  split.
  - apply ascii_only_forall. intros x Hx. by destruct (Hchar x Hx).
  - intros c Hc Hin. by destruct (Hchar c Hin).
Qed.


(** Beyond such names: a cleaned name that is ASCII is a fixed point
    only if it holds none of the characters to replace. *)
Lemma clean_column_str_idem_only_if (column : str) :
  ascii_only (clean_column_str table column) = true ->
  clean_column_str table (clean_column_str table column)
  = clean_column_str table column ->
  forall c, c ∈ bad_chars -> c ∉ clean_column_str table column.
Proof.
  intros Ha Hidem c Hc. rewrite <- Hidem.
  rewrite (clean_column_str_unfold (clean_column_str table column)).
  rewrite unidecode_ascii by (by apply replace_all_ascii).
  by apply replace_all_no_bad.
Qed.

End Cleaning.

(** ** Column names *)

Example clean_str_1 :
  clean_column_str unidecode_excerpt (py "Saldo [+] (PLN)") = py "Saldo_plus__PLN_".
Proof. reflexivity. Qed.

Example clean_str_2 :
  clean_column_str unidecode_excerpt (py "a[-]b/c-d") = py "aminusb_c_d".
Proof. reflexivity. Qed.

Example clean_names_1 :
  clean_column_names unidecode_excerpt [py "ts_ms"; py "[+] "; py "file"]
  = [py "ts_ms"; py "plus_"; py "file"].
Proof. reflexivity. Qed.

(** C8: the sequence normalizer [clean_column_names] equals the
    single-label normalizer [clean_column_str] applied to every element of
    the sequence, whatever the transliteration table; both are functions
    of their argument. *)
Theorem clean_column_names_elementwise (table : N -> str) (columns : list str) :
  clean_column_names table columns = map (clean_column_str table) columns.
Proof. apply clean_column_names_map. Qed.




(** ** Schema *)

Example schema_folder_3_types :
  create_schema unidecode_excerpt (py "folder_3")
  = Ok (map (fun '(n, t) => {| f_name := py n; f_type := py t; f_description := py n |})
          [ ("column_1", "STRING"); ("column_2", "INT64"); ("column_3", "STRING");
            ("column_4", "FLOAT64"); ("column_5", "FLOAT64"); ("column_6", "STRING");
            ("column_7", "FLOAT64"); ("date_col", "TIMESTAMP") ]%string).
Proof. reflexivity. Qed.

Example schema_all_folders_key :
  create_schema unidecode_excerpt (py "all_folders") = Raise TypeError.
Proof. reflexivity. Qed.

(** The override comes before the lookup in the type table: a column of
    folder_3 that is made a real column has a field whatever type the
    entry declares for it. *)
Example schema_override_before_lookup :
  create_schema_from unidecode_excerpt (py "folder_3")
    {| date_cols := None;
       dtypes := [ (py "column_4", PyOther (py "Decimal")) ];
       skip_rows := None; encoding := None;
       dayfirst := None; delimiter := None; decimal := None |}
  = Ok [ {| f_name := py "column_4"; f_type := py "FLOAT64";
            f_description := py "column_4" |} ].
Proof. reflexivity. Qed.

Section SchemaFacts.

Variable table : N -> str.

Lemma overridden_type_mapped (folder_name : str) (item : str * pytype) :
  mapped_type (snd item) = true ->
  mapped_type (overridden_type folder_name item) = true.
Proof.
  unfold overridden_type.
  destruct (str_eqb _ _ && str_in _ _); [reflexivity|auto].
Qed.

Lemma schema_date_cols_spec (dcs : list str) (schema : list field) :
  fold_left (schema_date_col table) dcs schema
  = schema ++ map (fun date_col =>
                     {| f_name := clean_column_str table date_col;
                        f_type := py "TIMESTAMP";
                        f_description := date_col |}) dcs.
Proof.
  revert schema. induction dcs as [|d dcs IH]; intros schema.
  - by rewrite app_nil_r.
  - cbn [fold_left map]. rewrite IH. unfold schema_date_col.
    by rewrite <- app_assoc.
Qed.

Lemma schema_columns_typed (folder_name : str) (items : list (str * pytype))
      (schema : list field) :
  forallb (fun item => table_type (overridden_type folder_name item)) items
  = true ->
  exists fields,
    schema_columns table folder_name schema items = Ok (schema ++ fields)
    /\ Forall2 (typed_field_of table folder_name) items fields.
Proof.
  revert schema. induction items as [|item items IH]; intros schema Hall.
  - exists []. split; [by rewrite app_nil_r|constructor].
  - cbn in Hall. apply andb_true_iff in Hall as [Hitem Hall].
    destruct (bq_types_mapping (overridden_type folder_name item))
      as [bq_type|] eqn:Hbq.
    2: { by destruct (overridden_type folder_name item). }
    destruct (IH (schema ++ [ {| f_name := clean_column_str table (fst item);
                                 f_type := bq_type;
                                 f_description := fst item |} ]) Hall)
      as (fields & Heq & Hfields).
    exists ({| f_name := clean_column_str table (fst item);
               f_type := bq_type;
               f_description := fst item |} :: fields). split.
    + cbn [schema_columns]. unfold schema_column.
      destruct item as [column type]. unfold overridden_type in Hbq.
      cbn [fst snd] in *. rewrite Hbq. cbn [res_bind].
      rewrite Heq, <- app_assoc. reflexivity.
    + constructor; [|exact Hfields].
      split; [reflexivity|]. split; [reflexivity|]. cbn [f_type].
      destruct (overridden_type folder_name item);
        cbn in Hbq; try discriminate; by injection Hbq as <-.
Qed.

End SchemaFacts.

(** C6: for a folder entry whose declared types are, after the folder_3
    override, among integer, text, real and boolean, [create_schema]
    returns a schema with one field per declared column, in declaration
    order, followed by one TIMESTAMP field per date column, in
    declaration order; its length is the number of declared columns plus
    the number of date columns; a declared column that is, after the
    override, an integer, text, real or boolean column has type INT64,
    STRING, FLOAT64 or BOOLEAN; every field's description is the label
    as declared and its name the cleaned label. *)
Theorem create_schema_shape (table : N -> str) (folder_name : str) (cfg : config) :
  forallb (fun item => table_type (overridden_type folder_name item)) (dtypes cfg)
  = true ->
  exists columns dates,
    create_schema_from table folder_name cfg = Ok (columns ++ dates)
    /\ length (columns ++ dates)
       = (length (dtypes cfg) + length (date_cols_list cfg))%nat
    /\ Forall2 (typed_field_of table folder_name) (dtypes cfg) columns
    /\ dates = map (fun date_col =>
                      {| f_name := clean_column_str table date_col;
                         f_type := py "TIMESTAMP";
                         f_description := date_col |}) (date_cols_list cfg)
    /\ map f_description (columns ++ dates)
       = map fst (dtypes cfg) ++ date_cols_list cfg.
Proof.
  intros Hall.
  destruct (schema_columns_typed table folder_name (dtypes cfg) [] Hall)
    as (columns & Heq & Hcols).
  cbn [app] in Heq.
  exists columns. eexists. split; [|split; [|split; [exact Hcols|split; [reflexivity|]]]].
  - unfold create_schema_from. rewrite Heq. cbn [res_bind].
    unfold date_cols_list.
    destruct (date_cols cfg) as [[|d dcs]|]; cbn [default map].
    + by rewrite app_nil_r.
    + by rewrite schema_date_cols_spec.
    + by rewrite app_nil_r.
  - rewrite length_app, length_map.
    by rewrite (Forall2_length _ _ _ Hcols).
  - rewrite map_app, map_map. cbn [f_description]. rewrite map_id.
    f_equal. clear Heq Hall.
    induction Hcols as [|item f items fields (_ & Hd & _) _ IH]; [reflexivity|].
    cbn. by rewrite Hd, IH.
Qed.

Lemma create_schema_shape_witness :
  forallb (fun item => table_type (overridden_type (py "folder_3") item))
          (dtypes config_folder_3) = true
  /\ exists columns dates,
       create_schema_from unidecode_excerpt (py "folder_3") config_folder_3
       = Ok (columns ++ dates)
       /\ length (columns ++ dates) = 8%nat
       /\ Forall2 (typed_field_of unidecode_excerpt (py "folder_3"))
                  (dtypes config_folder_3) columns
       /\ map f_type dates = [py "TIMESTAMP"].
Proof.
  split; [reflexivity|].
  destruct (create_schema_shape unidecode_excerpt (py "folder_3") config_folder_3
              eq_refl) as (columns & dates & Heq & Hlen & Hcols & Hdates & _).
  exists columns, dates.
  split; [exact Heq|]. split; [exact Hlen|]. split; [exact Hcols|].
  rewrite Hdates. reflexivity.
Defined.

(** ** The monad *)

Lemma bind_ok {S A B} (c : M S A) (k : A -> M S B) (s s' : S) (a : A) :
  c s = (Ok a, s') -> bind c k s = k a s'.
Proof. intros H. unfold bind. by rewrite H. Qed.

Lemma bind_raise {S A B} (c : M S A) (k : A -> M S B) (s s' : S) (e : exn) :
  c s = (Raise e, s') -> bind c k s = (Raise e, s').
Proof. intros H. unfold bind. by rewrite H. Qed.

Lemma for_each_app {S A} (l1 l2 : list A) (body : A -> M S unit) (s : S) :
  for_each (l1 ++ l2) body s
  = bind (for_each l1 body) (fun _ => for_each l2 body) s.
Proof.
  revert s. induction l1 as [|x l1 IH]; intros s; cbn [app for_each].
  - reflexivity.
  - unfold bind in *. destruct (body x s) as [[[]|e] s1]; [|reflexivity].
    apply IH.
Qed.

Lemma add_log_nil (s : state) : add_log s [] = s.
Proof. destruct s. unfold add_log. cbn. by rewrite app_nil_r. Qed.

Lemma add_log_app (s : state) (l1 l2 : list event) :
  add_log (add_log s l1) l2 = add_log s (l1 ++ l2).
Proof. unfold add_log. cbn. by rewrite app_assoc. Qed.

(** ** The methods of [DriveConnector], one by one *)

Section DriveFacts.

Variable table : N -> str.
Variables shared_drive_name dataset project : str.
Variable w : world.

Lemma emit_eq (e : event) (s : state) : emit e s = (Ok tt, add_log s [e]).
Proof. reflexivity. Qed.

Lemma send_error_mail_eq (file_name folder_name : str) (error : exn) (s : state) :
  send_error_mail file_name folder_name error s
  = (Ok tt, add_log s (error_events file_name folder_name error)).
Proof.
  unfold send_error_mail, bind, emit, add_log, error_events, error_text. cbn.
  by rewrite <- app_assoc.
Qed.

Lemma if_table_not_in_bq_eq (a : answers) (folder_name file_name : str)
      (s : state) :
  if_table_not_in_bq dataset project a folder_name file_name s
  = (gate_result a,
     add_log s [EQuery (dedup_query dataset project folder_name file_name)]).
Proof.
  unfold if_table_not_in_bq, gate_result, bind, try_except, lift, ret.
  rewrite emit_eq.
  destruct (a_query a) as [[]|e]; [|reflexivity].
  destruct (a_result a) as [n|[]]; try reflexivity.
  by destruct (Z.eqb n 0).
Qed.

Lemma upload_df_to_bq_eq (a : answers) (df : dataframe)
      (folder_name file_name : str) (schema : list field) (s : state) :
  create_schema table folder_name = Ok schema ->
  let table_id := dataset ++ py "." ++ folder_name in
  let attempt := delay_at (self_counter s) ++ [ELoad table_id df schema] in
  upload_df_to_bq table dataset a df folder_name file_name s
  = match a_load a with
    | Ok _ =>
        (Ok tt, bump_counter (add_log s (attempt ++ [EPrint (uploaded_text table_id)])))
    | Raise (ValueError msg) =>
        (Ok tt, bump_counter
                  (add_log s (attempt
                              ++ error_events file_name folder_name (ValueError msg))))
    | Raise e => (Raise e, add_log s attempt)
    end.
Proof.
  intros Hschema table_id attempt. subst attempt table_id.
  unfold upload_df_to_bq, get_counter, incr_counter.
  unfold bind at 1. cbn [fst snd].
  fold (self_counter s). unfold delay_at.
  unfold bind at 1.
  assert (Hdelay :
    (if (self_counter s mod 5 =? 0)%Z then emit (ESleep 10) else ret tt) s
    = (Ok tt, add_log s (if (self_counter s mod 5 =? 0)%Z then [ESleep 10] else []))).
  { destruct (self_counter s mod 5 =? 0)%Z; [reflexivity|].
    by rewrite add_log_nil. }
  rewrite Hdelay. clear Hdelay.
  set (d := if (self_counter s mod 5 =? 0)%Z then [ESleep 10] else []).
  unfold bind at 1. unfold lift at 1. rewrite Hschema.
  unfold bind at 1. unfold try_except.
  unfold bind at 1. rewrite emit_eq, add_log_app.
  unfold bind at 1. unfold lift at 1.
  destruct (a_load a) as [[]|e].
  - rewrite emit_eq, add_log_app. reflexivity.
  - destruct e; cbn [on_ValueError]; try reflexivity.
    rewrite send_error_mail_eq, add_log_app. reflexivity.
Qed.

Lemma config_get_entry (folder_name : str) (cfg : config) :
  config_of folder_name = Ok cfg -> config_get folder_name = Ok cfg.
Proof.
  unfold config_of, config_get.
  by destruct (assoc folder_name configs) as [[]|].
Qed.

Lemma get_df_from_file_id_eq (a : answers) (file_id file_name folder_name : str)
      (cfg : config) (s : state) :
  config_of folder_name = Ok cfg ->
  get_df_from_file_id a file_id file_name folder_name s
  = (a_read_csv a, add_log s [EDownload file_id (params_of cfg)]).
Proof.
  intros Hcfg. unfold get_df_from_file_id.
  unfold bind at 1. unfold lift at 1.
  rewrite (config_get_entry folder_name cfg Hcfg).
  unfold bind. rewrite emit_eq. reflexivity.
Qed.

Lemma upload_csv_to_bq_eq (a : answers) (folder_name file_name file_id : str)
      (cfg : config) (s : state) :
  config_of folder_name = Ok cfg ->
  let s0 := add_log s [EPrint (uploading_text folder_name file_name);
                       EDownload file_id (params_of cfg)] in
  upload_csv_to_bq table dataset a folder_name file_name file_id s
  = match a_read_csv a with
    | Raise (ValueError msg) =>
        (Ok tt, add_log s0 (error_events file_name folder_name (ValueError msg)))
    | Raise e => (Raise e, s0)
    | Ok df =>
        if df_empty df
        then (Ok tt, add_log s0 (error_events file_name folder_name
                                   (ValueError (py "CSV is empty!"))))
        else
          match prepare_df table a df file_name folder_name with
          | Raise e => (Raise e, s0)
          | Ok df' =>
              match upload_df_to_bq table dataset a df' folder_name file_name s0 with
              | (Ok _, s1) => (Ok tt, add_file s1 file_name)
              | (Raise e, s1) => (Raise e, s1)
              end
          end
    end.
Proof.
  intros Hcfg s0. subst s0.
  unfold upload_csv_to_bq.
  unfold bind at 1. rewrite emit_eq.
  unfold bind at 1. unfold try_except.
  unfold bind at 1.
  rewrite (get_df_from_file_id_eq a file_id file_name folder_name cfg _ Hcfg).
  rewrite add_log_app. cbn [app].
  fold (uploading_text folder_name file_name).
  destruct (a_read_csv a) as [df|e].
  - destruct (df_empty df).
    + unfold raise. cbn [on_ValueError].
      unfold bind at 1. rewrite send_error_mail_eq. reflexivity.
    + unfold ret at 1. unfold bind at 1. unfold lift at 1.
      destruct (prepare_df table a df file_name folder_name) as [df'|e];
        [|reflexivity].
      unfold bind at 1.
      destruct (upload_df_to_bq table dataset a df' folder_name file_name _)
        as [[[]|e] s1]; reflexivity.
  - destruct e; cbn [on_ValueError]; try reflexivity.
    unfold bind at 1. rewrite send_error_mail_eq. reflexivity.
Qed.

(** The folders of the allow-list: their names have no space, they have
    an entry in [configs], and their schema can be built. *)
Lemma allowed_folder (folder_name : str) :
  str_in folder_name all_folders = true ->
  replace (py " ") (py "_") folder_name = folder_name
  /\ (exists cfg, config_of folder_name = Ok cfg)
  /\ (exists schema, create_schema table folder_name = Ok schema).
Proof.
  intros Hin. apply bool_decide_eq_true_1 in Hin.
  change all_folders with [py "folder_1"; py "folder_2"; py "folder_3"] in Hin.
  repeat (apply elem_of_cons in Hin as [->|Hin]);
    [| | |by apply elem_of_nil in Hin];
    (split; [reflexivity|split; eexists; vm_compute; reflexivity]).
Qed.

End DriveFacts.

(** ** One file *)

Lemma state_eta (s : state) :
  {| files_added := files_added s ++ []; counter := counter s; log := log s ++ [] |} = s.
Proof. destruct s. cbn. by rewrite !app_nil_r. Qed.

Lemma throttle_trace_app (l1 l2 : list event) :
  throttle_trace (l1 ++ l2) = throttle_trace l1 ++ throttle_trace l2.
Proof. apply omap_app. Qed.

Lemma throttle_trace_delay_at (c : Z) (table_id : str) (df : dataframe)
      (schema : list field) :
  throttle_trace (delay_at c ++ [ELoad table_id df schema]) = ticks_at c.
Proof. unfold delay_at, ticks_at. by destruct (c mod 5 =? 0)%Z. Qed.

Lemma delays_precede_loads_attempt (c : Z) (table_id : str) (df : dataframe)
      (schema : list field) (rest : list event) :
  delays_precede_loads (delay_at c ++ ELoad table_id df schema :: rest)
  = delays_precede_loads rest.
Proof. unfold delay_at. by destruct (c mod 5 =? 0)%Z. Qed.

Ltac by_delay_cases :=
  unfold delay_at, ticks_at; destruct (_ mod 5 =? 0)%Z; reflexivity.

Lemma delays_precede_loads_app (l1 l2 : list event) :
  delays_precede_loads l1 = true -> delays_precede_loads l2 = true ->
  delays_precede_loads (l1 ++ l2) = true.
Proof.
  intros H1 H2. induction l1 as [|e l1 IH]; [exact H2|].
  destruct e; cbn [app delays_precede_loads] in *; auto.
  destruct l1 as [|e' l1']; [discriminate|].
  destruct e'; try discriminate. cbn [app]. auto.
Qed.

Lemma count_attempts_app (t1 t2 : list tick) :
  count_attempts (t1 ++ t2) = (count_attempts t1 + count_attempts t2)%nat.
Proof.
  induction t1 as [|[] t1 IH]; cbn; [reflexivity|exact IH|by rewrite IH].
Qed.

Lemma attempts_app (l1 l2 : list event) :
  attempts (l1 ++ l2) = (attempts l1 + attempts l2)%nat.
Proof. unfold attempts. by rewrite throttle_trace_app, count_attempts_app. Qed.

Lemma count_attempts_ticks_at (c : Z) : count_attempts (ticks_at c) = 1%nat.
Proof. unfold ticks_at. by destruct (_ =? 0)%Z. Qed.

Lemma no_summary_app (l1 l2 : list event) :
  no_summary (l1 ++ l2) = no_summary l1 && no_summary l2.
Proof. apply forallb_app. Qed.

Lemma result_of_ok (o : outcome) :
  result_of o = Ok tt -> aborted o = false /\ attempted o = recorded o.
Proof. destruct o as [| | | | | |[] e]; cbn; intros H; by try discriminate. Qed.

Lemma throttle_pattern_snoc (c : Z) (n : nat) :
  throttle_pattern c (S n)
  = throttle_pattern c n ++ ticks_at (c + Z.of_nat n).
Proof.
  revert c. induction n as [|n IH]; intros c.
  - cbn. by rewrite app_nil_r, Z.add_0_r.
  - change (throttle_pattern c (S (S n)))
      with (ticks_at c ++ throttle_pattern (c + 1) (S n)).
    rewrite IH. cbn [throttle_pattern]. rewrite <- app_assoc.
    do 3 f_equal. lia.
Qed.

Section ItemFacts.

Variable table : N -> str.
Variables shared_drive_name dataset project : str.
Variable w : world.

Lemma process_item_spec (folders_dict : gmap str str) (item : drive_file)
      (s : state) :
  let o := classify table folders_dict item in
  exists evs,
    process_item table dataset project folders_dict item s
    = (result_of o,
       {| files_added :=
            files_added s ++ (if recorded o then [d_name item] else []);
          counter :=
            if recorded o then Some (self_counter s + 1)%Z else counter s;
          log := log s ++ evs |})
    /\ no_summary evs = true
    /\ throttle_trace evs
       = (if attempted o then ticks_at (self_counter s) else [])
    /\ delays_precede_loads evs = true.
Proof.
  cbv zeta. unfold process_item, classify.
  destruct (d_trashed item).
  { exists []. by rewrite state_eta. }
  destruct (d_parents item) as [|parent parents].
  { exists []. by rewrite state_eta. }
  destruct (folders_dict !! parent) as [[|ch folder]|].
  1, 3: exists []; by rewrite state_eta.
  set (folder_name := ch :: folder).
  destruct (str_in folder_name all_folders) eqn:Hallowed.
  2: { exists []. by rewrite state_eta. }
  destruct (allowed_folder table folder_name Hallowed)
    as (-> & [cfg Hcfg] & [schema Hschema]).
  unfold bind at 1. rewrite if_table_not_in_bq_eq.
  destruct (gate_result (d_answers item)) as [[]|e].
  3: { eexists [_]. cbn. by rewrite app_nil_r. }
  2: { eexists [_]. cbn. by rewrite app_nil_r. }
  rewrite (upload_csv_to_bq_eq table dataset (d_answers item) folder_name
             (d_name item) (d_id item) cfg _ Hcfg).
  unfold classify_upload.
  rewrite !add_log_app.
  destruct (a_read_csv (d_answers item)) as [df|e].
  - destruct (df_empty df).
    { rewrite ?add_log_app. eexists. split; [|split; [|split]].
      - unfold add_log. cbn [recorded result_of files_added counter log].
        rewrite app_nil_r. reflexivity.
      - reflexivity.
      - reflexivity.
      - reflexivity. }
    destruct (prepare_df table (d_answers item) df (d_name item) folder_name)
      as [df'|e].
    2: { eexists. split; [|split; [|split]].
         - unfold add_log. cbn [recorded result_of files_added counter log].
           rewrite app_nil_r. reflexivity.
         - reflexivity.
         - reflexivity.
         - reflexivity. }
    rewrite (upload_df_to_bq_eq table dataset (d_answers item) df' folder_name
               (d_name item) schema _ Hschema).
    assert (Hc : forall l, self_counter (add_log s l) = self_counter s)
      by reflexivity.
    rewrite Hc.
    destruct (a_load (d_answers item)) as [[]|e].
    + rewrite ?add_log_app. eexists. split; [|split; [|split]].
      * unfold add_file, bump_counter, add_log.
        cbn [recorded result_of files_added counter log]. reflexivity.
      * by_delay_cases.
      * by_delay_cases.
      * by_delay_cases.
    + destruct e.
      1: { rewrite ?add_log_app. eexists. split; [|split; [|split]].
           - unfold add_file, bump_counter, add_log.
             cbn [recorded result_of files_added counter log]. reflexivity.
           - by_delay_cases.
           - by_delay_cases.
           - by_delay_cases. }
      all: rewrite ?add_log_app; eexists; (split; [|split; [|split]]);
        [ unfold add_log; cbn [recorded result_of files_added counter log];
          rewrite app_nil_r; reflexivity
        | by_delay_cases | by_delay_cases | by_delay_cases ].
  - destruct e.
    all: rewrite ?add_log_app; eexists; (split; [|split; [|split]]);
      [ unfold add_log; cbn [recorded result_of files_added counter log];
        rewrite app_nil_r; reflexivity
      | reflexivity | reflexivity | reflexivity ].
Qed.

(** ** The loop over the listed files *)

Lemma for_each_items_spec (folders_dict : gmap str str)
      (items : list drive_file) (s : state) :
  exists evs s',
    for_each items (process_item table dataset project folders_dict) s
    = (first_abort (map (classify table folders_dict) items), s')
    /\ log s' = log s ++ evs
    /\ no_summary evs = true
    /\ throttle_trace evs = throttle_pattern (self_counter s) (attempts evs)
    /\ delays_precede_loads evs = true
    /\ (first_abort (map (classify table folders_dict) items) = Ok tt ->
        files_added s'
        = files_added s ++ names_with table folders_dict recorded items
        /\ self_counter s' = (self_counter s + Z.of_nat (attempts evs))%Z).
Proof.
  revert s. induction items as [|item items IH]; intros s.
  - exists [], s. cbn. rewrite !app_nil_r.
    repeat split; try reflexivity. lia.
  - destruct (process_item_spec folders_dict item s)
      as (evs1 & Heq & Hns1 & Htr1 & Hdpl1).
    cbv zeta in Heq, Htr1.
    set (o := classify table folders_dict item) in *.
    cbn [for_each map first_abort]. fold o.
    unfold bind. rewrite Heq.
    assert (Hatt1 : attempts evs1 = if attempted o then 1%nat else 0%nat).
    { unfold attempts. rewrite Htr1.
      destruct (attempted o); [apply count_attempts_ticks_at|reflexivity]. }
    destruct (result_of o) as [[]|e] eqn:Hres.
    + destruct (result_of_ok o Hres) as [_ Hrec].
      rewrite Hrec in Htr1, Hatt1.
      match goal with
      | |- context [for_each items _ ?s1] =>
          destruct (IH s1) as (evs2 & s' & Heq2 & Hlog2 & Hns2 & Htr2 & Hdpl2 & Hok2);
          assert (Hsc : self_counter s1
                        = if recorded o then (self_counter s + 1)%Z
                          else self_counter s)
            by (by destruct (recorded o));
          rewrite Hsc in Htr2, Hok2; clear Hsc
      end.
      exists (evs1 ++ evs2), s'.
      cbn [log files_added] in Hlog2, Hok2.
      split; [exact Heq2|].
      split; [by rewrite Hlog2, app_assoc|].
      split; [by rewrite no_summary_app, Hns1, Hns2|].
      split; [|split; [by apply delays_precede_loads_app|]].
      * rewrite throttle_trace_app, attempts_app, Htr1, Htr2, Hatt1.
        by destruct (recorded o).
      * intros Hok. destruct (Hok2 Hok) as [Hfa Hcnt].
        rewrite Hfa, Hcnt, attempts_app, Hatt1.
        unfold names_with. cbn [List.filter]. fold o.
        destruct (recorded o); cbn [map app].
        -- split; [by rewrite <- app_assoc|lia].
        -- split; [by rewrite app_nil_r|lia].
    + eexists evs1, _. split; [reflexivity|].
      cbn [log].
      split; [reflexivity|].
      split; [exact Hns1|].
      split; [|split; [exact Hdpl1|discriminate]].
      rewrite Htr1, Hatt1.
      destruct (attempted o); cbn; by rewrite ?app_nil_r.
Qed.

End ItemFacts.

(** ** The whole run *)

Section RunFacts.

Variable table : N -> str.
Variables shared_drive_name dataset project : str.
Variable w : world.

Lemma send_confirmation_mail_eq (s : state) :
  send_confirmation_mail s = (Ok tt, add_log s [summary_mail (files_added s)]).
Proof.
  unfold send_confirmation_mail, get_files_added, bind, summary_mail.
  by destruct (files_added s).
Qed.

Lemma is_summary_summary_mail (added : list str) :
  is_summary (summary_mail added) = true.
Proof. by destruct added. Qed.

Lemma run_transfer_eq (s : state) :
  run_transfer table shared_drive_name dataset project w s
  = match discovery shared_drive_name w with
    | Raise e => (Raise e, s)
    | Ok (folders_ids, []) => (Ok tt, s)
    | Ok (folders_ids, items) =>
        iterate_through_items table dataset project items
          (make_folders_dict folders_ids) s
    end.
Proof.
  unfold run_transfer, discovery, get_shared_drive_id, get_folders_ids,
    get_items_ids, get_files_from_drive, bind, lift, ret.
  destruct (w_drives w) as [drives|e]; [|reflexivity].
  cbn [res_bind].
  destruct drives as [|d drives].
  all: destruct (w_files w _ (py "mimeType = 'application/vnd.google-apps.folder'") _)
    as [folders_ids|e]; [|reflexivity].
  all: cbn [res_bind].
  all: destruct (w_files w _ _ _) as [[|item items]|e]; reflexivity.
Qed.

(** What a run that lists at least one file does, in terms of the
    outcomes of the listed files. *)
Lemma iterate_through_items_spec (folders_dict : gmap str str)
      (items : list drive_file) (s : state) :
  exists evs s1,
    log s1 = log s ++ evs
    /\ no_summary evs = true
    /\ throttle_trace evs = throttle_pattern (self_counter s) (attempts evs)
    /\ delays_precede_loads evs = true
    /\ match first_abort (map (classify table folders_dict) items) with
       | Ok _ =>
           files_added s1
           = files_added s ++ names_with table folders_dict recorded items
           /\ iterate_through_items table dataset project items folders_dict s
              = (Ok tt, add_log s1 [summary_mail (files_added s1)])
       | Raise e =>
           iterate_through_items table dataset project items folders_dict s
           = (Raise e, s1)
       end.
Proof.
  destruct (for_each_items_spec table dataset project folders_dict items s)
    as (evs & s1 & Heq & Hlog & Hns & Htr & Hdpl & Hok).
  exists evs, s1. repeat (split; [assumption|]).
  unfold iterate_through_items, bind. rewrite Heq.
  destruct (first_abort _) as [[]|e]; [|reflexivity].
  split; [by apply Hok|].
  by rewrite send_confirmation_mail_eq.
Qed.

End RunFacts.

(** ** The dedup gate *)

Section Claims.

Variable table : N -> str.
Variables shared_drive_name dataset project : str.
Variable w : world.

Local Abbreviation run := (run_transfer table shared_drive_name dataset project w).
Local Abbreviation body := (process_item table dataset project).

Lemma classify_upload_not_at_query (a : answers) (folder_name file_name : str)
      (e : exn) :
  classify_upload table a folder_name file_name <> Aborted AtQuery e.
Proof.
  unfold classify_upload.
  destruct (a_read_csv a) as [df|[]]; try discriminate.
  destruct (df_empty df); [discriminate|].
  destruct (prepare_df _ _ _ _ _); [|discriminate].
  destruct (a_load a) as [[]|[]]; discriminate.
Qed.

(** A file whose dedup query fails: the exception leaves [process_item]
    right after the query. *)
Lemma process_item_query_abort (folders_dict : gmap str str)
      (item : drive_file) (e : exn) (s : state) :
  classify table folders_dict item = Aborted AtQuery e ->
  exists sql, body folders_dict item s = (Raise e, add_log s [EQuery sql]).
Proof.
  unfold classify, process_item.
  destruct (d_trashed item); [discriminate|].
  destruct (d_parents item) as [|parent parents]; [discriminate|].
  destruct (folders_dict !! parent) as [[|ch folder]|]; try discriminate.
  destruct (str_in (ch :: folder) all_folders); [|discriminate].
  unfold bind. rewrite if_table_not_in_bq_eq.
  destruct (gate_result (d_answers item)) as [[]|e'].
  - intros H. by apply classify_upload_not_at_query in H.
  - discriminate.
  - intros [= ->]. eexists. reflexivity.
Qed.

Lemma for_each_ok_prefix (folders_dict : gmap str str)
      (pre : list drive_file) (s : state) :
  first_abort (map (classify table folders_dict) pre) = Ok tt ->
  exists s1, for_each pre (body folders_dict) s = (Ok tt, s1).
Proof.
  intros Hok.
  destruct (for_each_items_spec table dataset project folders_dict pre s)
    as (evs & s1 & Heq & _).
  exists s1. by rewrite Heq, Hok.
Qed.

(** C1, amended: the gate, called with a folder and a file name, logs
    its query and (a) returns "proceed" when the result reports that
    the table does not exist, (b) returns "proceed" when the query
    succeeds with no matching row, (c) returns "already ingested" when
    it succeeds with at least one row; (d) any other failure of the
    query is raised by the gate, and it ends the run there: the files
    listed after that one are not processed and no end-of-run
    notification is sent. *)
Theorem dedup_gate_outcomes (a : answers) (folder_name file_name : str)
        (s : state) :
  let gate := if_table_not_in_bq dataset project a folder_name file_name s in
  let queried :=
    add_log s [EQuery (dedup_query dataset project folder_name file_name)] in
  (a_query a = Ok tt -> a_result a = Raise NotFound -> gate = (Ok true, queried))
  /\ (a_query a = Ok tt -> a_result a = Ok 0%Z -> gate = (Ok true, queried))
  /\ (forall n, a_query a = Ok tt -> a_result a = Ok n -> n <> 0%Z ->
        gate = (Ok false, queried))
  /\ (forall e, a_query a = Raise e
                \/ (a_query a = Ok tt /\ a_result a = Raise e /\ e <> NotFound) ->
        gate = (Raise e, queried))
  /\ (forall folders_dict pre item post e s0,
        first_abort (map (classify table folders_dict) pre) = Ok tt ->
        classify table folders_dict item = Aborted AtQuery e ->
        exists s1 sql,
          for_each pre (body folders_dict) s0 = (Ok tt, s1)
          /\ iterate_through_items table dataset project
               (pre ++ item :: post) folders_dict s0
             = (Raise e, add_log s1 [EQuery sql])).
Proof.
  cbv zeta. rewrite if_table_not_in_bq_eq. unfold gate_result.
  split; [|split; [|split; [|split]]].
  - by intros -> ->.
  - by intros -> ->.
  - intros n -> -> Hn. by destruct (Z.eqb_spec n 0).
  - intros e [->|(-> & -> & Hne)]; [reflexivity|]. by destruct e.
  - intros folders_dict pre item post e s0 Hpre Hitem.
    destruct (for_each_ok_prefix folders_dict pre s0 Hpre) as [s1 Hs1].
    destruct (process_item_query_abort folders_dict item e s1 Hitem)
      as [sql Hsql].
    exists s1, sql. split; [exact Hs1|].
    unfold iterate_through_items.
    unfold bind at 1. rewrite for_each_app.
    unfold bind at 1. rewrite Hs1.
    cbn [for_each]. unfold bind at 1. by rewrite Hsql.
Qed.

End Claims.

Lemma dedup_gate_outcomes_witness :
  if_table_not_in_bq (py "ds") (py "proj") present_answers
                     (py "folder_1") (py "a.csv") fresh_process
  = (Ok false,
     add_log fresh_process
       [EQuery (dedup_query (py "ds") (py "proj") (py "folder_1") (py "a.csv"))]).
Proof.
  destruct (dedup_gate_outcomes unidecode_excerpt (py "ds") (py "proj")
              present_answers (py "folder_1") (py "a.csv") fresh_process)
    as (_ & _ & Hpresent & _).
  apply (Hpresent 1%Z).
  - reflexivity.
  - reflexivity.
  - discriminate.
Defined.

(** C1, as stated, fails in its last part: when the dedup query of the
    first file fails with an error other than [NotFound], the run ends
    with that error right after the query; the second file, new and well
    formed, is never looked at, and nothing is sent. *)
Lemma dedup_failure_ends_run :
  let r := example_run [file_named "a.csv" query_error_answers;
                        file_named "b.csv" new_file_answers] fresh_process in
  fst r = Raise (OtherError (py "backend error"))
  /\ log (snd r)
     = [EQuery (dedup_query (py "ds") (py "proj") (py "folder_1") (py "a.csv"))]
  /\ files_added (snd r) = [].
Proof. vm_compute. repeat split. Qed.

(** ** Views of the log, and the throttle pattern *)

Lemma throttle_pattern_every_fifth (k n : nat) :
  throttle_pattern (Z.of_nat k) n
  = flat_map (fun k => (if Z.eqb (Z.of_nat k mod 5) 0 then [Delay 10] else [])
                       ++ [Attempt])
             (seq k n).
Proof.
  revert k. induction n as [|n IH]; intros k; [reflexivity|].
  cbn [throttle_pattern seq flat_map].
  replace (Z.of_nat k + 1)%Z with (Z.of_nat (S k)) by lia.
  by rewrite IH.
Qed.

Lemma summaries_app (l1 l2 : list event) :
  summaries (l1 ++ l2) = summaries l1 ++ summaries l2.
Proof. apply List.filter_app. Qed.

Lemma no_summary_summaries (l : list event) :
  no_summary l = true -> summaries l = [].
Proof.
  unfold no_summary, summaries.
  induction l as [|e l IH]; [reflexivity|].
  cbn. destruct (is_summary e); cbn; [discriminate|exact IH].
Qed.

Lemma recorded_split (o : outcome) :
  recorded o = is_loaded o || load_errored o.
Proof. by destruct o. Qed.

Example every_fifth_11 :
  every_fifth 11
  = [Attempt; Attempt; Attempt; Attempt; Delay 10; Attempt;
     Attempt; Attempt; Attempt; Attempt; Delay 10; Attempt; Attempt].
Proof. reflexivity. Qed.

(** ** The claims about a run *)

Section RunClaims.

Variable table : N -> str.
Variables shared_drive_name dataset project : str.
Variable w : world.

Local Abbreviation run := (run_transfer table shared_drive_name dataset project w).

Lemma names_without_load_error (folders_dict : gmap str str)
      (items : list drive_file) :
  forallb (fun item => negb (load_errored (classify table folders_dict item)))
          items = true ->
  names_with table folders_dict recorded items
  = names_with table folders_dict is_loaded items.
Proof.
  intros Hall. unfold names_with. f_equal.
  induction items as [|item items IH]; [reflexivity|].
  cbn in Hall. apply andb_true_iff in Hall as [Hitem Hall].
  cbn [List.filter]. rewrite recorded_split.
  apply negb_true_iff in Hitem. rewrite Hitem, orb_false_r.
  by rewrite IH.
Qed.

(** What a run does that lists at least one file and lets no exception
    escape: per-file actions, then the end-of-run notification built
    from [files_added]. *)
Lemma run_completed (s : state) (folders_ids items : list drive_file) :
  discovery shared_drive_name w = Ok (folders_ids, items) ->
  items <> [] ->
  fst (run s) = Ok tt ->
  exists evs,
    let added := files_added s
                 ++ names_with table (make_folders_dict folders_ids)
                      recorded items in
    log (snd (run s)) = log s ++ evs ++ [summary_mail added]
    /\ files_added (snd (run s)) = added
    /\ no_summary evs = true
    /\ throttle_trace evs = throttle_pattern (self_counter s) (attempts evs)
    /\ delays_precede_loads evs = true.
Proof.
  intros Hdisc Hitems. rewrite run_transfer_eq, Hdisc.
  destruct items as [|item items]; [done|].
  destruct (iterate_through_items_spec table dataset project
              (make_folders_dict folders_ids) (item :: items) s)
    as (evs & s1 & Hlog & Hns & Htr & Hdpl & Hres).
  destruct (first_abort _) as [[]|e].
  - destruct Hres as [Hfa ->]. intros _.
    exists evs. cbn [fst snd add_log log files_added].
    rewrite Hfa, Hlog, <- app_assoc. done.
  - rewrite Hres. discriminate.
Qed.

(** What any run adds to the log, however it ends. *)
Lemma run_log (s : state) :
  exists evs,
    log (snd (run s)) = log s ++ evs
    /\ throttle_trace evs = throttle_pattern (self_counter s) (attempts evs)
    /\ delays_precede_loads evs = true.
Proof.
  rewrite run_transfer_eq.
  destruct (discovery shared_drive_name w) as [[folders_ids items]|e].
  2: { exists []. by rewrite app_nil_r. }
  destruct items as [|item items].
  { exists []. by rewrite app_nil_r. }
  destruct (iterate_through_items_spec table dataset project
              (make_folders_dict folders_ids) (item :: items) s)
    as (evs & s1 & Hlog & Hns & Htr & Hdpl & Hres).
  destruct (first_abort _) as [[]|e].
  - destruct Hres as [Hfa ->].
    exists (evs ++ [summary_mail (files_added s1)]).
    cbn [snd add_log log]. rewrite Hlog, <- app_assoc.
    split; [reflexivity|].
    assert (Hmail : throttle_trace [summary_mail (files_added s1)] = [])
      by (by destruct (files_added s1)).
    split.
    + rewrite attempts_app, throttle_trace_app. unfold attempts at 2.
      rewrite Hmail, app_nil_r. cbn [count_attempts].
      by rewrite Nat.add_0_r.
    + apply delays_precede_loads_app; [exact Hdpl|].
      by destruct (files_added s1).
  - rewrite Hres. exists evs. done.
Qed.

(** What a run returns, with a notifier that takes every mail: the
    exception of discovery, or the first exception that the processing
    of a listed file lets escape. *)
Lemma run_transfer_result (s : state) (folders_ids items : list drive_file) :
  discovery shared_drive_name w = Ok (folders_ids, items) ->
  fst (run s)
  = first_abort (map (classify table (make_folders_dict folders_ids)) items).
Proof.
  intros Hdisc. rewrite run_transfer_eq, Hdisc.
  destruct items as [|item items]; [reflexivity|].
  destruct (iterate_through_items_spec table dataset project
              (make_folders_dict folders_ids) (item :: items) s)
    as (evs & s1 & _ & _ & _ & _ & Hres).
  destruct (first_abort _) as [[]|e].
  - destruct Hres as [_ ->]. reflexivity.
  - by rewrite Hres.
Qed.

(** C2, amended: a run whose listing is empty does nothing, so it sends
    no end-of-run notification.  In every run that lists at least one
    file and lets no exception escape, exactly one end-of-run
    notification is sent, as the last action of the run, built from
    [files_added] as the run leaves it.  When the run started with an
    empty [files_added] and no load raised [ValueError], it lists, in
    the order of processing, the names of the files that were loaded
    and no other name, and it is the distinct "no file" message when
    no file was loaded. *)
Theorem summary_lists_loaded_files (s : state)
        (folders_ids items : list drive_file) :
  discovery shared_drive_name w = Ok (folders_ids, items) ->
  (items = [] -> run s = (Ok tt, s))
  /\ (items <> [] ->
      fst (run s) = Ok tt ->
      exists evs,
        let sent := summary_mail (files_added (snd (run s))) in
        let loaded := names_with table (make_folders_dict folders_ids)
                                 is_loaded items in
        log (snd (run s)) = log s ++ evs ++ [sent]
        /\ summaries (evs ++ [sent]) = [sent]
        /\ (files_added s = [] ->
            forallb (fun item =>
                       negb (load_errored
                               (classify table (make_folders_dict folders_ids)
                                         item)))
                    items = true ->
            files_added (snd (run s)) = loaded
            /\ (loaded = [] -> sent = EMail no_file_subject no_file_text)
            /\ (loaded <> [] ->
                sent = EMail summary_subject
                             (py "Files added: " ++ nl ++ join nl loaded)))).
Proof.
  intros Hdisc. split.
  - intros ->. by rewrite run_transfer_eq, Hdisc.
  - intros Hitems Hok.
    destruct (run_completed s folders_ids items Hdisc Hitems Hok)
      as (evs & Hlog & Hfa & Hns & _).
    cbv zeta in Hlog, Hfa.
    exists evs. cbv zeta. rewrite Hfa.
    split; [exact Hlog|]. split.
    + rewrite summaries_app, (no_summary_summaries evs Hns).
      cbn [app summaries List.filter].
      by rewrite is_summary_summary_mail.
    + intros Hfresh Hnoerr.
      rewrite Hfresh, (names_without_load_error _ _ Hnoerr).
      cbn [app]. split; [reflexivity|]. split.
      * intros Hnone. rewrite Hnone. reflexivity.
      * intros Hne. by destruct (names_with _ _ is_loaded _).
Qed.

(** C3, amended: when one of the listing calls of discovery fails, the
    run ends with that exception before anything else is done.
    Discovery is not the only way a run ends: when the processing of
    a listed file lets an exception escape, the run ends with an
    exception as well, and it is the exception of the first such file
    when no error mail was due for the files before it. *)
Theorem run_termination (s : state) :
  (forall e, discovery shared_drive_name w = Raise e -> run s = (Raise e, s))
  /\ (forall folders_ids pre item post st e,
        discovery shared_drive_name w = Ok (folders_ids, pre ++ item :: post) ->
        classify table (make_folders_dict folders_ids) item = Aborted st e ->
        (exists e', fst (run s) = Raise e')
        /\ (Forall (fun earlier =>
                      let o := classify table (make_folders_dict folders_ids)
                                        earlier in
                      aborted o = false /\ notified o = None) pre ->
            fst (run s) = Raise e)).
Proof.
  split.
  - intros e Hdisc. by rewrite run_transfer_eq, Hdisc.
  - intros folders_ids pre item post st e Hdisc Hitem.
    rewrite (run_transfer_result s folders_ids _ Hdisc).
    rewrite map_app. cbn [map]. rewrite Hitem. clear Hdisc Hitem. split.
    + induction pre as [|earlier pre IH]; cbn.
      * by exists e.
      * destruct (result_of _) as [[]|e']; [exact IH|by exists e'].
    + intros Hpre. induction Hpre as [|earlier pre [Hab _] _ IH]; cbn.
      * reflexivity.
      * cbv zeta in Hab.
        destruct (classify table (make_folders_dict folders_ids) earlier);
          try discriminate; exact IH.
Qed.

(** C5: a newly constructed connector reads its counter as 1, and over
    the [n] load attempts of its run the 10-second delay is taken
    immediately before attempt number 5, 10, 15, ... and before no
    other: the delays and load attempts the run adds to the log are
    those of [every_fifth n], and every delay in the log is directly
    followed by a load attempt. *)
Theorem delay_before_every_fifth_load (s : state) :
  exists evs,
    log (snd (run (new_instance s))) = log s ++ evs
    /\ throttle_trace evs = every_fifth (attempts evs)
    /\ delays_precede_loads evs = true.
Proof.
  destruct (run_log (new_instance s)) as (evs & Hlog & Htr & Hdpl).
  exists evs. split; [exact Hlog|]. split; [|exact Hdpl].
  rewrite Htr. apply (throttle_pattern_every_fifth 1).
Qed.

(** C4: when the file parses to a table without rows, [upload_csv_to_bq]
    announces the file, downloads it, prints and mails the error
    "CSV is empty!" and returns: nothing is loaded, the counter and
    [files_added] are as before, and the outcome of the file is
    [SkippedEmpty]. *)
Theorem empty_table_is_skipped (a : answers) (folder_name file_name file_id : str)
        (cfg : config) (df : dataframe) (s : state) :
  config_of folder_name = Ok cfg ->
  a_read_csv a = Ok df ->
  df_rows df = 0%nat ->
  let error := ValueError (py "CSV is empty!") in
  let evs := [ EPrint (uploading_text folder_name file_name);
               EDownload file_id (params_of cfg);
               EPrint (error_text file_name folder_name error);
               EMail error_subject (error_text file_name folder_name error) ] in
  upload_csv_to_bq table dataset a folder_name file_name file_id s
  = (Ok tt, add_log s evs)
  /\ forallb (fun e => negb (is_load e)) evs = true
  /\ classify_upload table a folder_name file_name = SkippedEmpty.
Proof.
  intros Hcfg Hread Hrows. cbv zeta.
  assert (Hempty : df_empty df = true).
  { unfold df_empty. rewrite Hrows. apply orb_true_r. }
  split; [|split; [reflexivity|]].
  - rewrite (upload_csv_to_bq_eq table dataset a folder_name file_name file_id
               cfg s Hcfg).
    rewrite Hread, Hempty, add_log_app. reflexivity.
  - unfold classify_upload. by rewrite Hread, Hempty.
Qed.

(** C10, amended: [files_added] is one list for the process, so a
    connector constructed after an earlier run starts with the names
    that run recorded, and they come first in its end-of-run
    notification; [counter] is not shared: the new connector reads it
    as 1, whatever the earlier run counted, and its delays fall before
    its own 5th, 10th, ... load attempt. *)
Theorem files_added_shared_counter_not (s : state)
        (folders_ids items : list drive_file) :
  discovery shared_drive_name w = Ok (folders_ids, items) ->
  items <> [] ->
  fst (run (new_instance s)) = Ok tt ->
  files_added (new_instance s) = files_added s
  /\ self_counter (new_instance s) = 1%Z
  /\ exists evs,
       let added := files_added s
                    ++ names_with table (make_folders_dict folders_ids)
                         recorded items in
       log (snd (run (new_instance s))) = log s ++ evs ++ [summary_mail added]
       /\ files_added (snd (run (new_instance s))) = added
       /\ no_summary evs = true
       /\ throttle_trace evs = every_fifth (attempts evs).
Proof.
  intros Hdisc Hitems Hok.
  split; [reflexivity|]. split; [reflexivity|].
  destruct (run_completed (new_instance s) folders_ids items Hdisc Hitems Hok)
    as (evs & Hlog & Hfa & Hns & Htr & _).
  exists evs. cbv zeta in *. repeat split; try assumption.
  rewrite Htr. apply (throttle_pattern_every_fifth 1).
Qed.

End RunClaims.

(** ** Examples and counterexamples of runs *)

Lemma summary_lists_loaded_files_witness :
  exists evs,
    log (snd (run_transfer unidecode_excerpt (py "shared") (py "ds") (py "proj")
                (world_with [file_named "a.csv" new_file_answers;
                             file_named "skip.csv" present_answers;
                             file_named "b.csv" new_file_answers])
                fresh_process))
    = evs ++ [EMail summary_subject
                (py "Files added: " ++ nl ++ py "a.csv" ++ nl ++ py "b.csv")].
Proof.
  destruct (summary_lists_loaded_files unidecode_excerpt (py "shared") (py "ds")
              (py "proj")
              (world_with [file_named "a.csv" new_file_answers;
                           file_named "skip.csv" present_answers;
                           file_named "b.csv" new_file_answers])
              fresh_process
              [folder_entry "F1" "folder_1"; folder_entry "F2" "folder_2";
               folder_entry "F3" "folder_3"]
              [file_named "a.csv" new_file_answers;
               file_named "skip.csv" present_answers;
               file_named "b.csv" new_file_answers])
    as [_ Hrun].
  - reflexivity.
  - destruct Hrun as (evs & Hlog & _ & Hbody).
    + discriminate.
    + vm_compute. reflexivity.
    + destruct Hbody as (_ & _ & Hsent).
      * reflexivity.
      * vm_compute. reflexivity.
      * exists evs. cbv zeta in Hlog, Hsent.
        rewrite Hsent in Hlog by (vm_compute; discriminate).
        exact Hlog.
Defined.

(** C2, as stated, fails: a run whose listing is empty returns without
    sending anything, so it sends no end-of-run notification, neither the
    list of files nor the "no file" message. *)
Lemma empty_listing_sends_no_summary :
  example_run [] fresh_process = (Ok tt, fresh_process)
  /\ summaries (log (snd (example_run [] fresh_process))) = [].
Proof. split; reflexivity. Qed.

(** A file whose load raises [ValueError] gets its error mail and is
    listed in the end-of-run notification all the same: [upload_df_to_bq]
    handles the error and returns, and [upload_csv_to_bq] goes on to
    record the name. *)
Example load_error_is_listed :
  mails (log (snd (example_run [file_named "bad.csv" load_error_answers]
                               fresh_process)))
  = [ (error_subject,
       py "Error while loading bad.csv from folder_1" ++ nl
       ++ py "Error: bad shape");
      (summary_subject, py "Files added: " ++ nl ++ py "bad.csv") ].
Proof. vm_compute. reflexivity. Qed.

(** The two end-to-end scenarios of the design: two new files are loaded
    and listed; on the rerun both are already present and the "no file"
    message is sent (in a new process). *)
Example scenario_new_files :
  mails (log (snd (example_run [file_named "a.csv" new_file_answers;
                                file_named "b.csv" new_file_answers]
                               fresh_process)))
  = [ (summary_subject, py "Files added: " ++ nl ++ py "a.csv" ++ nl ++ py "b.csv") ].
Proof. vm_compute. reflexivity. Qed.

Example scenario_rerun :
  mails (log (snd (example_run [file_named "a.csv" present_answers;
                                file_named "b.csv" present_answers]
                               fresh_process)))
  = [ (no_file_subject, no_file_text) ].
Proof. vm_compute. reflexivity. Qed.

(** C3, as stated, fails in its second part: discovery succeeds, and the
    run still ends with an exception, here the one raised by the download
    of the first file; the second file is never looked at and no
    notification is sent. *)
Lemma download_failure_ends_run :
  let items := [file_named "a.csv" download_error_answers;
                file_named "b.csv" new_file_answers] in
  let r := example_run items fresh_process in
  (exists folders_ids,
     discovery (py "shared") (world_with items) = Ok (folders_ids, items))
  /\ fst r = Raise (OtherError (py "download failed"))
  /\ mails (log (snd r)) = []
  /\ attempts (log (snd r)) = 0%nat.
Proof.
  cbv zeta. split; [eexists; reflexivity|].
  vm_compute. repeat split.
Qed.

Lemma run_termination_witness :
  fst (example_run [file_named "a.csv" download_error_answers;
                    file_named "b.csv" new_file_answers] fresh_process)
  = Raise (OtherError (py "download failed")).
Proof.
  destruct (run_termination unidecode_excerpt (py "shared") (py "ds") (py "proj")
              (world_with [file_named "a.csv" download_error_answers;
                           file_named "b.csv" new_file_answers])
              fresh_process) as [_ Hfile].
  destruct (Hfile [folder_entry "F1" "folder_1"; folder_entry "F2" "folder_2";
                   folder_entry "F3" "folder_3"]
                  [] (file_named "a.csv" download_error_answers)
                  [file_named "b.csv" new_file_answers]
                  AtRead (OtherError (py "download failed")))
    as [_ Hfirst].
  - reflexivity.
  - vm_compute. reflexivity.
  - apply Hfirst. constructor.
Defined.

(** The reader asked for the [all_folders] key: the list stored there
    has no [get]. *)
Example reader_all_folders_key :
  fst (get_df_from_file_id new_file_answers (py "id") (py "a.csv")
         (py "all_folders") fresh_process)
  = Raise AttributeError.
Proof. reflexivity. Qed.

(** A shared drive that is not among the listed drives gives no drive id;
    the run goes on to the listings with no drive id. *)
Example unresolved_drive_goes_on :
  get_shared_drive_id (py "missing") (world_with []) fresh_process
  = (Ok None, fresh_process)
  /\ mails (log (snd (run_transfer unidecode_excerpt (py "missing") (py "ds")
                        (py "proj")
                        (world_with [file_named "a.csv" new_file_answers])
                        fresh_process)))
     = [ (summary_subject, py "Files added: " ++ nl ++ py "a.csv") ].
Proof. split; vm_compute; reflexivity. Qed.

Lemma empty_table_is_skipped_witness :
  upload_csv_to_bq unidecode_excerpt (py "ds") empty_file_answers
                   (py "folder_1") (py "e.csv") (py "id-e.csv") fresh_process
  = (Ok tt,
     add_log fresh_process
       [ EPrint (uploading_text (py "folder_1") (py "e.csv"));
         EDownload (py "id-e.csv") (params_of config_folder_12);
         EPrint (error_text (py "e.csv") (py "folder_1")
                            (ValueError (py "CSV is empty!")));
         EMail error_subject
               (error_text (py "e.csv") (py "folder_1")
                           (ValueError (py "CSV is empty!"))) ]).
Proof.
  apply (empty_table_is_skipped unidecode_excerpt (py "ds") empty_file_answers
           (py "folder_1") (py "e.csv") (py "id-e.csv") config_folder_12
           {| df_columns := [py "column_1"]; df_rows := 0 |} fresh_process).
  - reflexivity.
  - reflexivity.
  - reflexivity.
Defined.

Example throttle_of_six_loads :
  throttle_trace
    (log (snd (example_run
                 (map (fun n => file_named n new_file_answers)
                      ["1"; "2"; "3"; "4"; "5"; "6"]%string)
                 fresh_process)))
  = [Attempt; Attempt; Attempt; Attempt; Delay 10; Attempt; Attempt].
Proof. vm_compute. reflexivity. Qed.

(** C10, as stated, fails for the counter: after a first run with four
    loads the first connector's counter reads 5, yet a connector
    constructed afterwards reads 1, and its first load is not delayed;
    the names of the first run are in its [files_added]. *)
Lemma second_connector_counter_restarts :
  let s1 := snd (example_run four_new_files fresh_process) in
  let r2 := example_run [file_named "e.csv" new_file_answers] s1 in
  self_counter s1 = 5%Z
  /\ self_counter (new_instance s1) = 1%Z
  /\ throttle_trace (drop (length (log s1)) (log (snd r2))) = [Attempt]
  /\ files_added (snd r2)
     = [py "a.csv"; py "b.csv"; py "c.csv"; py "d.csv"; py "e.csv"].
Proof. vm_compute. repeat split. Qed.

Lemma files_added_shared_counter_not_witness :
  let s1 := snd (example_run four_new_files fresh_process) in
  files_added (new_instance s1) = [py "a.csv"; py "b.csv"; py "c.csv"; py "d.csv"]
  /\ self_counter (new_instance s1) = 1%Z.
Proof.
  cbv zeta.
  destruct (files_added_shared_counter_not unidecode_excerpt (py "shared")
              (py "ds") (py "proj")
              (world_with [file_named "e.csv" new_file_answers])
              (snd (example_run four_new_files fresh_process))
              [folder_entry "F1" "folder_1"; folder_entry "F2" "folder_2";
               folder_entry "F3" "folder_3"]
              [file_named "e.csv" new_file_answers])
    as (Hfa & Hcnt & _).
  - reflexivity.
  - discriminate.
  - vm_compute. reflexivity.
  - split; [|exact Hcnt]. rewrite Hfa. vm_compute. reflexivity.
Defined.

(** ** [StorageConnector] *)

Example readlines_example :
  map length (readlines (blob_gunzip example_blob)) = [5; 4; 4]%nat.
Proof. reflexivity. Qed.

Example readlines_no_final_newline :
  length (readlines (list_byte_of_string "a" ++ [x0a] ++ list_byte_of_string "b"))
  = 2%nat.
Proof. reflexivity. Qed.

Example table_name_example :
  get_table_name_from_blob example_blob = Ok (py "events").
Proof. reflexivity. Qed.

Lemma enumerate_from_last {A} (l : list A) (start : nat) (acc : option Z) :
  fold_left (fun (_ : option Z) (il : Z * A) => Some (fst il))
            (enumerate_from start l) acc
  = match l with
    | [] => acc
    | _ :: _ => Some (Z.of_nat (start + length l) - 1)%Z
    end.
Proof.
  revert start acc. induction l as [|x l IH]; intros start acc; [reflexivity|].
  unfold enumerate_from in *. cbn [length seq map combine fold_left fst].
  rewrite IH. destruct l; cbn [length]; f_equal; lia.
Qed.

Section StorageFacts.

Variables bucket_name project_name dataset : str.
Variable tables_to_skip : list str.
Variable list_blobs : str -> res (list blob).

Lemma count_lines_eq (b : blob) (s : list sevent) :
  count_lines b s
  = match readlines (blob_gunzip b) with
    | [] => (Raise UnboundLocalError, s)
    | _ :: _ =>
        (Ok (records_of b - 1)%Z,
         s ++ [SPrint (rows_counted_text (records_of b - 1))])
    end.
Proof.
  unfold count_lines, records_of. unfold enumerate.
  change (combine (map Z.of_nat (seq 0 (length ?l))) ?l)
    with (enumerate_from 0 l).
  rewrite enumerate_from_last.
  destruct (readlines (blob_gunzip b)) as [|l ls]; reflexivity.
Qed.

(** C9, amended: for an object with at least one line whose load job
    succeeds, the recomputed count is the number of newline-delimited
    lines of the decompressed object minus one (the index of its last
    line); it is compared with the row count the load reports; whether
    they agree or not, the check only prints a line and returns, and
    the loop over the objects goes on with the next one. *)
Theorem row_count_check (b : blob) (blob_uri table_name : str)
        (rows_loaded : Z) (s : list sevent) :
  readlines (blob_gunzip b) <> [] ->
  blob_load b = Ok rows_loaded ->
  let lines := (records_of b - 1)%Z in
  let table_id := project_name ++ py "." ++ dataset ++ py "." ++ table_name in
  let s' := s ++ [ SLoadJob blob_uri table_id;
                   SPrint (rows_counted_text lines);
                   SPrint (if Z.eqb rows_loaded lines
                           then loaded_text rows_loaded
                           else different_text rows_loaded lines) ] in
  count_lines b s = (Ok lines, s ++ [SPrint (rows_counted_text lines)])
  /\ check_if_all_rows_uploaded project_name dataset b blob_uri table_name s
     = (Ok tt, s')
  /\ (forall rest,
        blob_uri = get_uri_from_blob bucket_name b ->
        get_table_name_from_blob b = Ok table_name ->
        check_if_table_to_skip tables_to_skip table_name = false ->
        for_each (b :: rest)
                 (load_blob bucket_name project_name dataset tables_to_skip) s
        = for_each rest
                   (load_blob bucket_name project_name dataset tables_to_skip) s').
Proof.
  intros Hlines Hload. cbv zeta.
  assert (Hcount : forall s0,
            count_lines b s0
            = (Ok (records_of b - 1)%Z,
               s0 ++ [SPrint (rows_counted_text (records_of b - 1))])).
  { intros s0. rewrite count_lines_eq.
    by destruct (readlines (blob_gunzip b)). }
  assert (Hcheck :
    check_if_all_rows_uploaded project_name dataset b blob_uri table_name s
    = (Ok tt,
       s ++ [ SLoadJob blob_uri
                (project_name ++ py "." ++ dataset ++ py "." ++ table_name);
              SPrint (rows_counted_text (records_of b - 1));
              SPrint (if Z.eqb rows_loaded (records_of b - 1)
                      then loaded_text rows_loaded
                      else different_text rows_loaded (records_of b - 1)) ])).
  { unfold check_if_all_rows_uploaded, upload_data_to_bq, bind, semit, lift.
    rewrite Hload, Hcount.
    destruct (Z.eqb rows_loaded (records_of b - 1));
      by rewrite <- !app_assoc. }
  split; [apply Hcount|]. split; [exact Hcheck|].
  intros rest -> Hname Hskip.
  cbn [for_each]. unfold bind at 1.
  unfold load_blob at 1. unfold bind at 1, lift at 1.
  rewrite Hname, Hskip. unfold try_except. by rewrite Hcheck.
Qed.

End StorageFacts.

Lemma row_count_check_witness :
  check_if_all_rows_uploaded (py "proj") (py "ds") mismatch_blob
    (py "gs://bucket/2019/events.csv.gz") (py "events") []
  = (Ok tt,
     [ SLoadJob (py "gs://bucket/2019/events.csv.gz") (py "proj.ds.events");
       SPrint (py "Rows counted:  2");
       SPrint (py "Different number of rows!! Loaded: 5vs from csv: 2") ]).
Proof.
  destruct (row_count_check (py "bucket") (py "proj") (py "ds") []
              mismatch_blob (py "gs://bucket/2019/events.csv.gz") (py "events")
              5%Z [])
    as (_ & Hcheck & _).
  - discriminate.
  - reflexivity.
  - exact Hcheck.
Defined.

(** C9, as stated, fails in its first part: for an object of three
    newline-delimited lines, [count_lines] returns 2. *)
Lemma count_lines_is_last_index :
  records_of example_blob = 3%Z
  /\ count_lines example_blob [] = (Ok 2%Z, [SPrint (py "Rows counted:  2")]).
Proof. split; reflexivity. Qed.

(** An object without any line leaves [lines] unbound. *)
Example count_lines_empty :
  count_lines empty_blob [] = (Raise UnboundLocalError, []).
Proof. reflexivity. Qed.

(** A mismatch on the first object does not keep the second one from
    being loaded and checked. *)
Example mismatch_then_next :
  load_data_from_storage (py "bucket") (py "proj") (py "ds") []
    (fun year => if str_eqb year (py "2019")
                 then Ok [mismatch_blob; example_blob] else Ok [])
    [py "2019"] []
  = (Ok tt,
     [ SLoadJob (py "gs://bucket/2019/events.csv.gz") (py "proj.ds.events");
       SPrint (py "Rows counted:  2");
       SPrint (py "Different number of rows!! Loaded: 5vs from csv: 2");
       SLoadJob (py "gs://bucket/2019/events.csv.gz") (py "proj.ds.events");
       SPrint (py "Rows counted:  2");
       SPrint (py "Loaded 2 rows.") ]).
Proof. vm_compute. reflexivity. Qed.

(** * Further properties *)

(** ** Cleaned column names *)

(** X1: on a column name of ASCII characters, [clean_column_str] returns
    an ASCII name in which none of the characters of [chars_to_replace]
    occurs. *)
Theorem clean_ascii_is_safe (table : N -> str) (column : str) :
  ascii_only column = true ->
  ascii_only (clean_column_str table column) = true
  /\ forall c, [c] ∈ chars_to_replace -> c ∉ clean_column_str table column.
Proof.
  intros Ha. rewrite clean_column_str_unfold.
  rewrite (unidecode_ascii table (replace_all column))
    by (by apply replace_all_ascii).
  split; [by apply replace_all_ascii|].
  intros c Hc. apply replace_all_no_bad. by apply bad_char_iff.
Qed.

Lemma clean_ascii_is_safe_witness :
  ascii_only (py "Saldo [+] (PLN)") = true
  /\ ascii_only (clean_column_str unidecode_excerpt (py "Saldo [+] (PLN)")) = true.
Proof.
  split; [reflexivity|].
  apply (clean_ascii_is_safe unidecode_excerpt (py "Saldo [+] (PLN)")).
  reflexivity.
Defined.

(** X2: an ASCII column name in which none of the characters of
    [chars_to_replace] occurs is returned unchanged by
    [clean_column_str]. *)
Theorem clean_leaves_clean_names (table : N -> str) (column : str) :
  ascii_only column = true ->
  (forall c, [c] ∈ chars_to_replace -> c ∉ column) ->
  clean_column_str table column = column.
Proof.
  intros Ha Hb. apply clean_column_str_stable; [exact Ha|].
  intros c Hc. apply Hb. by apply bad_char_iff.
Qed.

Lemma clean_leaves_clean_names_witness :
  ascii_only (py "ts_ms") = true
  /\ (forall c, [c] ∈ chars_to_replace -> c ∉ py "ts_ms")
  /\ clean_column_str unidecode_excerpt (py "ts_ms") = py "ts_ms".
Proof.
  assert (Hb : forall c, [c] ∈ chars_to_replace -> c ∉ py "ts_ms").
  { intros c Hc Hin. apply bad_char_iff in Hc.
    revert Hin. apply (bool_decide_unpack _).
    unfold bad_chars in Hc.
    repeat (apply elem_of_cons in Hc as [->|Hc]; [reflexivity|]).
    by apply elem_of_nil in Hc. }
  split; [reflexivity|]. split; [exact Hb|].
  apply (clean_leaves_clean_names unidecode_excerpt (py "ts_ms"));
    [reflexivity|exact Hb].
Defined.

(** X3: when every character of a column name outside ASCII has, in the
    transliteration table, a replacement text that is ASCII and holds none
    of the characters of [chars_to_replace], the cleaned name is ASCII and
    holds none of these characters; an ASCII name is the case with no such
    character at all. *)
Theorem clean_name_is_safe (table : N -> str) (column : str) :
  transliterates_cleanly table column = true ->
  ascii_only (clean_column_str table column) = true
  /\ forall c, [c] ∈ chars_to_replace -> c ∉ clean_column_str table column.
Proof.
  intros Hclean.
  destruct (clean_column_str_clean table column Hclean) as [Ha Hb].
  split; [exact Ha|].
  intros c Hc. apply Hb. by apply bad_char_iff.
Qed.

Lemma clean_name_is_safe_witness :
  let column := py "Op" ++ [322%N] ++ py "ata (z" ++ [322%N] ++ py ") [+]" in
  transliterates_cleanly unidecode_excerpt column = true
  /\ clean_column_str unidecode_excerpt column = py "Oplata__zl__plus"
  /\ ascii_only (clean_column_str unidecode_excerpt column) = true.
Proof.
  cbv zeta. split; [reflexivity|]. split; [reflexivity|].
  apply (clean_name_is_safe unidecode_excerpt
           (py "Op" ++ [322%N] ++ py "ata (z" ++ [322%N] ++ py ") [+]")).
  reflexivity.
Defined.

(** ** Schema: failures and overrides *)

Section SchemaMore.

Variable table : N -> str.

Lemma schema_columns_inv (folder_name : str) (items : list (str * pytype))
    (schema result : list field) :
schema_columns table folder_name schema items = Ok result ->
exists fields,
  result = schema ++ fields
  /\ Forall2 (column_field_of table folder_name) items fields.
Proof.
revert schema. induction items as [|[column type] items IH]; intros schema.
- cbn. intros [= <-]. exists []. split; [by rewrite app_nil_r|constructor].
- cbn [schema_columns]. unfold schema_column.
  destruct (bq_types_mapping _) as [bq_type|] eqn:Hbq; [|discriminate].
  cbn [res_bind]. intros H.
  destruct (IH _ H) as (fields & -> & Hfields).
  eexists (_ :: fields). split; [by rewrite <- app_assoc|].
  constructor; [|exact Hfields].
  split; [reflexivity|split; [exact Hbq|reflexivity]].
Qed.

Lemma create_schema_from_inv (folder_name : str) (cfg : config)
    (schema : list field) :
create_schema_from table folder_name cfg = Ok schema ->
exists columns dates,
  schema = columns ++ dates
  /\ Forall2 (column_field_of table folder_name) (dtypes cfg) columns.
Proof.
unfold create_schema_from.
destruct (schema_columns table folder_name [] (dtypes cfg)) as [columns|e] eqn:Hc;
  [|discriminate].
destruct (schema_columns_inv _ _ _ _ Hc) as (fields & -> & Hfields).
cbn [res_bind app].
destruct (date_cols cfg) as [[|d dcs]|]; intros [= <-].
- exists fields, []. by rewrite app_nil_r.
- rewrite schema_date_cols_spec. unfold schema_date_col. rewrite <- app_assoc.
  eexists fields, _. split; [reflexivity|exact Hfields].
- exists fields, []. by rewrite app_nil_r.
Qed.

(** X4: [create_schema] stops at the first declared column whose type,
  after the folder_3 override, is not a key of [bq_types_mapping]: it
  raises [KeyError] for that type and returns no schema. *)
Theorem create_schema_unmapped_type (folder_name : str) (cfg : config)
      (pre post : list (str * pytype)) (column : str) (type : pytype)
      (name : str) :
dtypes cfg = pre ++ (column, type) :: post ->
forallb (fun item => mapped_type (snd item)) pre = true ->
overridden_type folder_name (column, type) = PyOther name ->
create_schema_from table folder_name cfg = Raise (KeyError name).
Proof.
intros Hd Hpre Hty. unfold create_schema_from. rewrite Hd.
assert (Hcols : forall schema,
          schema_columns table folder_name schema (pre ++ (column, type) :: post)
          = Raise (KeyError name)).
{ clear Hd. induction pre as [|item pre IH]; intros schema.
  - cbn [app schema_columns]. unfold schema_column.
    unfold overridden_type in Hty. cbn [fst snd] in Hty.
    rewrite Hty. reflexivity.
  - cbn in Hpre. apply andb_true_iff in Hpre as [Hitem Hpre].
    apply (overridden_type_mapped folder_name) in Hitem.
    unfold mapped_type in Hitem.
    destruct (bq_types_mapping (overridden_type folder_name item)) eqn:Hbq;
      [|discriminate].
    cbn [app schema_columns]. unfold schema_column at 1.
    destruct item as [c t]. unfold overridden_type in Hbq.
    cbn [fst snd] in Hbq. rewrite Hbq. cbn [res_bind]. by apply IH. }
by rewrite Hcols.
Qed.

(** X5: every folder of [configs['all_folders']] has an entry in
  [configs] whose schema can be built, with eight fields, and its name
  has no space, so the replacement of spaces leaves it as it is. *)
Theorem allow_listed_folder_has_schema (folder_name : str) :
str_in folder_name all_folders = true ->
replace (py " ") (py "_") folder_name = folder_name
/\ exists cfg schema,
     config_of folder_name = Ok cfg
     /\ create_schema table folder_name = Ok schema
     /\ length schema = 8%nat.
Proof.
intros Hin. apply bool_decide_eq_true_1 in Hin.
change all_folders with [py "folder_1"; py "folder_2"; py "folder_3"] in Hin.
repeat (apply elem_of_cons in Hin as [->|Hin]);
  [| | |by apply elem_of_nil in Hin];
  (split; [reflexivity|]; do 2 eexists;
   split; [reflexivity|split; [vm_compute; reflexivity|reflexivity]]).
Qed.

(** X6: in a schema built for folder_3, whatever the entry declares, the
  field of a declared column named in [folder3_columns_to_float] has
  type FLOAT64. *)
Theorem folder_3_columns_are_float (cfg : config) (schema : list field)
      (i : nat) (column : str) (type : pytype) :
create_schema_from table (py "folder_3") cfg = Ok schema ->
dtypes cfg !! i = Some (column, type) ->
column ∈ folder3_columns_to_float ->
exists f, schema !! i = Some f
          /\ f_type f = py "FLOAT64" /\ f_description f = column.
Proof.
intros Hs Hi Hcol.
destruct (create_schema_from_inv _ _ _ Hs) as (columns & dates & -> & Hcols).
destruct (Forall2_lookup_l _ _ _ _ _ Hcols Hi) as (f & Hf & _ & Hty & Hd).
exists f. split; [by apply lookup_app_l_Some|].
split; [|exact Hd].
unfold overridden_type in Hty. cbn [fst snd] in Hty.
assert (Hin : str_in column folder3_columns_to_float = true)
  by (by apply bool_decide_eq_true_2).
assert (Heq : str_eqb (py "folder_3") (py "folder_3") = true) by reflexivity.
rewrite Heq, Hin in Hty. cbn [andb bq_types_mapping] in Hty. congruence.
Qed.

End SchemaMore.

Lemma create_schema_unmapped_type_witness :
  create_schema_from unidecode_excerpt (py "folder_1")
    {| date_cols := None;
       dtypes := [(py "a", PyInt); (py "b", PyOther (py "object"))];
       skip_rows := None; encoding := None; dayfirst := None;
       delimiter := None; decimal := None |}
  = Raise (KeyError (py "object")).
Proof.
  apply (create_schema_unmapped_type unidecode_excerpt (py "folder_1") _
           [(py "a", PyInt)] [] (py "b") (PyOther (py "object")) (py "object")).
  - reflexivity.
  - reflexivity.
  - reflexivity.
Defined.

Lemma allow_listed_folder_has_schema_witness :
  str_in (py "folder_2") all_folders = true
  /\ replace (py " ") (py "_") (py "folder_2") = py "folder_2".
Proof.
  split; [reflexivity|].
  apply (allow_listed_folder_has_schema unidecode_excerpt (py "folder_2")). reflexivity.
Defined.

Lemma folder_3_columns_are_float_witness :
  exists f, (f_type f = py "FLOAT64" /\ f_description f = py "column_4").
Proof.
  destruct (folder_3_columns_are_float unidecode_excerpt config_folder_3
              (map (fun '(n, t) => {| f_name := py n; f_type := py t;
                                      f_description := py n |})
                 [ ("column_1", "STRING"); ("column_2", "INT64");
                   ("column_3", "STRING"); ("column_4", "FLOAT64");
                   ("column_5", "FLOAT64"); ("column_6", "STRING");
                   ("column_7", "FLOAT64"); ("date_col", "TIMESTAMP") ]%string)
              3%nat (py "column_4") PyStr)
    as (f & _ & Hf).
  - reflexivity.
  - reflexivity.
  - apply (bool_decide_unpack _). reflexivity.
  - exists f. exact Hf.
Defined.

(** ** Preparing the data frame *)

Lemma rename_column_absent (old new : str) (df : dataframe) :
  str_in old (df_columns df) = false -> rename_column old new df = df.
Proof.
  intros Hin. apply bool_decide_eq_false_1 in Hin.
  destruct df as [cols rows]. unfold rename_column. cbn in *. f_equal.
  induction cols as [|c cols IH]; [reflexivity|].
  apply not_elem_of_cons in Hin as [Hc Hcols].
  cbn. rewrite IH by exact Hcols.
  unfold str_eqb. rewrite bool_decide_eq_false_2 by congruence. reflexivity.
Qed.

Lemma prepare_df_folder12_renames (df : dataframe) :
  prepare_df_folder12 df
  = rename_column (py "[+] ") (py "[+]") (rename_column (py "[-] ") (py "[-]") df).
Proof.
  unfold prepare_df_folder12.
  destruct (str_in (py "[-] ") (df_columns df)) eqn:H1.
  - destruct (str_in (py "[+] ") _) eqn:H2; [reflexivity|].
    by rewrite (rename_column_absent (py "[+] ")).
  - rewrite (rename_column_absent (py "[-] ") _ df H1).
    destruct (str_in (py "[+] ") _) eqn:H2; [reflexivity|].
    by rewrite (rename_column_absent (py "[+] ")).
Qed.

Lemma elem_of_rename_column (old new x : str) (df : dataframe) :
  x <> old -> x <> new ->
  (x ∈ df_columns (rename_column old new df)) <-> (x ∈ df_columns df).
Proof.
  intros Hold Hnew. unfold rename_column. cbn [df_columns].
  rewrite list_elem_of_fmap. split.
  - intros (c & Hx & Hc). unfold str_eqb in Hx.
    destruct (bool_decide (c = old)); congruence.
  - intros Hx. exists x. split; [|exact Hx].
    unfold str_eqb. by rewrite bool_decide_eq_false_2.
Qed.

Lemma prepare_df_folder12_facts (df : dataframe) :
  length (df_columns (prepare_df_folder12 df)) = length (df_columns df)
  /\ df_rows (prepare_df_folder12 df) = df_rows df
  /\ (py "[-] " ∉ df_columns (prepare_df_folder12 df))
  /\ (py "[+] " ∉ df_columns (prepare_df_folder12 df)).
Proof.
  rewrite prepare_df_folder12_renames. unfold rename_column.
  cbn [df_columns df_rows]. rewrite !length_map.
  split; [reflexivity|]. split; [reflexivity|]. split.
  - rewrite list_elem_of_fmap. intros (c & Hx & Hc).
    unfold str_eqb in Hx. destruct (bool_decide (c = py "[+] ")); [discriminate|].
    subst c. apply list_elem_of_fmap in Hc as (c & Hx & _).
    unfold str_eqb in Hx.
    destruct (bool_decide (c = py "[-] ")) eqn:Hc; [discriminate|].
    apply bool_decide_eq_false_1 in Hc. congruence.
  - rewrite list_elem_of_fmap. intros (c & Hx & _).
    unfold str_eqb in Hx.
    destruct (bool_decide (c = py "[+] ")) eqn:Hc; [discriminate|].
    apply bool_decide_eq_false_1 in Hc. congruence.
Qed.

(** X7: [prepare_df_folder12] leaves the number of columns and of rows as
    they are, and afterwards no column is labelled "[-] " or "[+] " (with
    the trailing space). *)
Theorem prepare_df_folder12_labels (df : dataframe) :
  length (df_columns (prepare_df_folder12 df)) = length (df_columns df)
  /\ df_rows (prepare_df_folder12 df) = df_rows df
  /\ (py "[-] " ∉ df_columns (prepare_df_folder12 df))
  /\ (py "[+] " ∉ df_columns (prepare_df_folder12 df)).
Proof. apply prepare_df_folder12_facts. Qed.

Lemma prepare_columns_to_float_ok (a : answers) (df df' : dataframe)
      (columns : list str) :
  prepare_columns_to_float a df columns = Ok df' -> df' = df.
Proof.
  induction columns as [|column columns IH]; cbn [prepare_columns_to_float].
  - by intros [= <-].
  - unfold change_str_with_comma_to_float.
    destruct (str_in column (df_columns df)); [|discriminate].
    destruct (a_astype a); [|discriminate]. cbn [res_bind]. exact IH.
Qed.

Section PrepareFacts.

Variable table : N -> str.

Lemma clean_ts_ms : clean_column_str table (py "ts_ms") = py "ts_ms".
Proof. reflexivity. Qed.

Lemma clean_file : clean_column_str table (py "file") = py "file".
Proof. reflexivity. Qed.

(** X8: when [prepare_df] returns a frame, the frame had no column
  "ts_ms"; the new frame has the same rows, "ts_ms" as its first
  column and a column "file", and one column more than before if the
  frame already had a column "file", two more otherwise. *)
Theorem prepare_df_shape (a : answers) (df df' : dataframe)
      (file_name folder_name : str) :
prepare_df table a df file_name folder_name = Ok df' ->
str_in (py "ts_ms") (df_columns df) = false
/\ df_rows df' = df_rows df
/\ head (df_columns df') = Some (py "ts_ms")
/\ (py "file" ∈ df_columns df')
/\ length (df_columns df')
   = (length (df_columns df)
      + if str_in (py "file") (df_columns df) then 1 else 2)%nat.
Proof.
unfold prepare_df.
set (df1 := if str_in folder_name [py "folder_3"]
            then prepare_df_folder3 a df else Ok df).
assert (H1 : forall d, df1 = Ok d -> d = df).
{ subst df1. destruct (str_in folder_name [py "folder_3"]).
  - intros d Hd.
    by apply (prepare_columns_to_float_ok a df d folder3_columns_to_float).
  - by intros d [= <-]. }
destruct df1 as [d|e]; [|discriminate].
rewrite (H1 d eq_refl). clear H1 d. cbn [res_bind].
set (df2 := if str_in folder_name [py "folder_1"; py "folder_2"]
            then prepare_df_folder12 df else df).
assert (H2 : df_rows df2 = df_rows df
             /\ length (df_columns df2) = length (df_columns df)
             /\ (forall x, x = py "file" \/ x = py "ts_ms" ->
                   (x ∈ df_columns df2) <-> (x ∈ df_columns df))).
{ subst df2. destruct (str_in folder_name _); [|done].
  destruct (prepare_df_folder12_facts df) as (Hlen & Hrows & _).
  split; [exact Hrows|]. split; [exact Hlen|].
  intros x Hx. rewrite prepare_df_folder12_renames.
  rewrite !elem_of_rename_column; [done|..];
    destruct Hx as [-> | ->]; discriminate. }
destruct H2 as (Hrows & Hlen & Hmem).
assert (Hfile : str_in (py "file") (df_columns df2)
                = str_in (py "file") (df_columns df)).
{ unfold str_in. apply bool_decide_ext. apply Hmem. by left. }
assert (Hts : str_in (py "ts_ms") (df_columns df2)
              = str_in (py "ts_ms") (df_columns df)).
{ unfold str_in. apply bool_decide_ext. apply Hmem. by right. }
unfold insert_ts_ms, set_file_column. rewrite Hfile.
destruct (str_in (py "file") (df_columns df)) eqn:Hf.
- rewrite Hts.
  destruct (str_in (py "ts_ms") (df_columns df)); [discriminate|].
  cbn [res_bind]. intros [= <-]. cbn [df_columns df_rows].
  rewrite clean_column_names_map. cbn [map head length].
  rewrite length_map, Hlen.
  split; [reflexivity|]. split; [exact Hrows|]. split; [reflexivity|].
  split; [|cbn; lia].
  right. apply list_elem_of_fmap. exists (py "file").
  split; [reflexivity|].
  by apply bool_decide_eq_true_1 in Hfile.
- cbn [df_columns].
  assert (Hts' : str_in (py "ts_ms") (df_columns df2 ++ [py "file"])
                 = str_in (py "ts_ms") (df_columns df)).
  { rewrite <- Hts. unfold str_in. apply bool_decide_ext.
    rewrite elem_of_app, list_elem_of_singleton. split; [|by left].
    intros [H|H]; [exact H|discriminate]. }
  rewrite Hts'.
  destruct (str_in (py "ts_ms") (df_columns df)); [discriminate|].
  cbn [res_bind]. intros [= <-]. cbn [df_columns df_rows].
  rewrite clean_column_names_map. cbn [map head length].
  rewrite length_map, length_app, Hlen.
  split; [reflexivity|]. split; [exact Hrows|]. split; [reflexivity|].
  split; [|cbn; lia].
  right. apply list_elem_of_fmap. exists (py "file").
  split; [reflexivity|].
  apply elem_of_app. right. left.
Qed.

(** X9: for folder_3, [prepare_df] raises [KeyError] when the frame has
  no column "column_4", or has it and converts it but has no column
  "column_5"; and it raises what the float conversion raises. *)
Theorem prepare_df_folder3_columns (a : answers) (df : dataframe)
      (file_name : str) :
let prepared := prepare_df table a df file_name (py "folder_3") in
(str_in (py "column_4") (df_columns df) = false ->
 prepared = Raise (KeyError (py "column_4")))
/\ (str_in (py "column_4") (df_columns df) = true ->
    a_astype a = Ok tt ->
    str_in (py "column_5") (df_columns df) = false ->
    prepared = Raise (KeyError (py "column_5")))
/\ (forall e, str_in (py "column_4") (df_columns df) = true ->
              a_astype a = Raise e -> prepared = Raise e).
Proof.
cbv zeta. unfold prepare_df.
change (str_in (py "folder_3") [py "folder_3"]) with true. cbv iota.
unfold prepare_df_folder3.
change folder3_columns_to_float with [py "column_4"; py "column_5"].
cbn [prepare_columns_to_float]. unfold change_str_with_comma_to_float.
split; [|split].
- by intros ->.
- intros H4 Ha H5. rewrite H4, Ha. cbn [res_bind]. by rewrite H5.
- intros e H4 Ha. by rewrite H4, Ha.
Qed.

End PrepareFacts.

Lemma prepare_df_shape_witness :
  let df := {| df_columns := [py "[-] "; py "Kwota (PLN)"]; df_rows := 2 |} in
  let df' := {| df_columns := [py "ts_ms"; py "minus"; py "Kwota__PLN_"; py "file"];
                df_rows := 2 |} in
  prepare_df unidecode_excerpt new_file_answers df (py "a.csv") (py "folder_1")
  = Ok df'
  /\ head (df_columns df') = Some (py "ts_ms")
  /\ length (df_columns df') = 4%nat.
Proof.
  cbv zeta. split; [reflexivity|].
  destruct (prepare_df_shape unidecode_excerpt new_file_answers
              {| df_columns := [py "[-] "; py "Kwota (PLN)"]; df_rows := 2 |}
              {| df_columns := [py "ts_ms"; py "minus"; py "Kwota__PLN_"; py "file"];
                 df_rows := 2 |}
              (py "a.csv") (py "folder_1") eq_refl) as (_ & _ & Hhead & _ & Hlen).
  split; [exact Hhead|exact Hlen].
Defined.

Lemma prepare_df_folder3_columns_witness :
  prepare_df unidecode_excerpt new_file_answers
    {| df_columns := [py "column_1"]; df_rows := 2 |} (py "a.csv") (py "folder_3")
  = Raise (KeyError (py "column_4")).
Proof.
  destruct (prepare_df_folder3_columns unidecode_excerpt new_file_answers
              {| df_columns := [py "column_1"]; df_rows := 2 |} (py "a.csv"))
    as [Hmissing _].
  apply Hmissing. reflexivity.
Defined.

(** ** One file, further cases *)

Section ItemMore.

Variable table : N -> str.
Variables dataset project : str.

Local Abbreviation body := (process_item table dataset project).

(** X10: a listed file that is trashed, or whose first parent is not a
  known folder, or is a folder with an empty name or a name outside
  [configs['all_folders']], is passed over: no query, no download, no
  mail, and the state is unchanged. *)
Theorem filtered_item_is_ignored (folders_dict : gmap str str)
      (item : drive_file) (s : state) :
d_trashed item = true
\/ (exists parent rest,
      d_parents item = parent :: rest
      /\ (folders_dict !! parent = None
          \/ folders_dict !! parent = Some []
          \/ exists name, folders_dict !! parent = Some name
                          /\ str_in name all_folders = false)) ->
body folders_dict item s = (Ok tt, s).
Proof.
unfold process_item.
intros [->|(parent & rest & -> & [->| [->|(name & -> & Hname)]])];
  try reflexivity.
- by destruct (d_trashed item).
- by destruct (d_trashed item).
- destruct (d_trashed item); [reflexivity|].
  destruct name; [reflexivity|]. by rewrite Hname.
Qed.

(** X11: a listed file that is not trashed and has no parent makes
  [item['parents'][0]] raise [IndexError]; nothing catches it, so the
  loop stops there with the state unchanged and the files listed after
  it are not processed. *)
Theorem item_without_parent_stops_loop (folders_dict : gmap str str)
      (item : drive_file) (rest : list drive_file) (s : state) :
d_trashed item = false ->
d_parents item = [] ->
iterate_through_items table dataset project (item :: rest) folders_dict s
= (Raise IndexError, s).
Proof.
intros Ht Hp. unfold iterate_through_items, bind. cbn [for_each].
unfold bind, process_item. by rewrite Ht, Hp.
Qed.

(** X12: [upload_df_to_bq], for a folder whose schema can be built,
  never touches [files_added]; when it returns, the counter is one
  more than before; whenever an exception escapes it, the counter is
  as before; and an exception of the load that is not a [ValueError]
  does escape it. *)
Theorem upload_df_to_bq_counter (a : answers) (df : dataframe)
      (folder_name file_name : str) (schema : list field) (s : state) :
create_schema table folder_name = Ok schema ->
let r := upload_df_to_bq table dataset a df folder_name file_name s in
files_added (snd r) = files_added s
/\ (fst r = Ok tt -> self_counter (snd r) = (self_counter s + 1)%Z)
/\ (forall e, fst r = Raise e -> counter (snd r) = counter s)
/\ (forall e, a_load a = Raise e -> (forall msg, e <> ValueError msg) ->
      fst r = Raise e).
Proof.
intros Hschema. cbv zeta.
rewrite (upload_df_to_bq_eq table dataset a df folder_name file_name schema s
           Hschema).
destruct (a_load a) as [[]|e].
- cbn [fst snd]. split; [reflexivity|]. split; [intros _; reflexivity|].
  split; intros e; discriminate.
- destruct e; cbn [fst snd]; (split; [reflexivity|]).
  1: { split; [intros _; reflexivity|]. split; [intros e; discriminate|].
       intros e [= <-] Hnot. by destruct (Hnot msg). }
  all: split; [discriminate|]; split; [reflexivity|];
    by intros e' [= <-] _.
Qed.

(** X13: when the download or the parsing raises, [upload_csv_to_bq]
  mails a [ValueError] and returns without loading or recording the
  file; any other exception escapes, with no mail. *)
Theorem read_error_handling (a : answers) (folder_name file_name file_id : str)
      (cfg : config) (e : exn) (s : state) :
config_of folder_name = Ok cfg ->
a_read_csv a = Raise e ->
let started := [ EPrint (uploading_text folder_name file_name);
                 EDownload file_id (params_of cfg) ] in
upload_csv_to_bq table dataset a folder_name file_name file_id s
= match e with
  | ValueError _ =>
      (Ok tt, add_log s (started ++ error_events file_name folder_name e))
  | _ => (Raise e, add_log s started)
  end.
Proof.
intros Hcfg Hread. cbv zeta.
rewrite (upload_csv_to_bq_eq table dataset a folder_name file_name file_id
           cfg s Hcfg), Hread.
destruct e; rewrite ?add_log_app; reflexivity.
Qed.

(** X14: an exception raised by [prepare_df], a [ValueError] included,
  is outside the handler of [upload_csv_to_bq]: it escapes after the
  download, with no mail, no load and nothing recorded. *)
Theorem prepare_error_escapes (a : answers) (folder_name file_name file_id : str)
      (cfg : config) (df : dataframe) (e : exn) (s : state) :
config_of folder_name = Ok cfg ->
a_read_csv a = Ok df ->
df_empty df = false ->
prepare_df table a df file_name folder_name = Raise e ->
upload_csv_to_bq table dataset a folder_name file_name file_id s
= (Raise e, add_log s [ EPrint (uploading_text folder_name file_name);
                         EDownload file_id (params_of cfg) ]).
Proof.
intros Hcfg Hread Hempty Hprep.
rewrite (upload_csv_to_bq_eq table dataset a folder_name file_name file_id
           cfg s Hcfg), Hread, Hempty, Hprep. reflexivity.
Qed.

End ItemMore.

Lemma filtered_item_is_ignored_witness :
  process_item unidecode_excerpt (py "ds") (py "proj") ∅
    (file_named "a.csv" new_file_answers) fresh_process
  = (Ok tt, fresh_process).
Proof.
  apply (filtered_item_is_ignored unidecode_excerpt (py "ds") (py "proj") ∅
           (file_named "a.csv" new_file_answers) fresh_process).
  right. exists (py "F1"), []. split; [reflexivity|]. left. reflexivity.
Defined.

Lemma item_without_parent_stops_loop_witness :
  iterate_through_items unidecode_excerpt (py "ds") (py "proj")
    [folder_entry "x" "orphan.csv"; file_named "a.csv" new_file_answers] ∅
    fresh_process
  = (Raise IndexError, fresh_process).
Proof.
  apply (item_without_parent_stops_loop unidecode_excerpt (py "ds") (py "proj") ∅
           (folder_entry "x" "orphan.csv")
           [file_named "a.csv" new_file_answers] fresh_process).
  - reflexivity.
  - reflexivity.
Defined.

Lemma upload_df_to_bq_counter_witness :
  let df := {| df_columns := [py "ts_ms"; py "file"]; df_rows := 1 |} in
  self_counter
    (snd (upload_df_to_bq unidecode_excerpt (py "ds") load_error_answers df
            (py "folder_1") (py "bad.csv") fresh_process))
  = 2%Z.
Proof.
  cbv zeta.
  destruct (upload_df_to_bq_counter unidecode_excerpt (py "ds")
              load_error_answers
              {| df_columns := [py "ts_ms"; py "file"]; df_rows := 1 |}
              (py "folder_1") (py "bad.csv")
              (map (fun '(n, t) => {| f_name := py n; f_type := py t;
                                      f_description := py n |})
                 [ ("column_1", "INT64"); ("column_2", "STRING");
                   ("column_3", "STRING"); ("column_4", "FLOAT64");
                   ("column_5", "FLOAT64"); ("column_6", "STRING");
                   ("column_7", "FLOAT64"); ("col_date", "TIMESTAMP") ]%string)
              fresh_process) as (_ & Hok & _).
  - reflexivity.
  - apply Hok. reflexivity.
Defined.

Lemma read_error_handling_witness :
  fst (upload_csv_to_bq unidecode_excerpt (py "ds") download_error_answers
         (py "folder_1") (py "a.csv") (py "id-a.csv") fresh_process)
  = Raise (OtherError (py "download failed")).
Proof.
  rewrite (read_error_handling unidecode_excerpt (py "ds") download_error_answers
             (py "folder_1") (py "a.csv") (py "id-a.csv") config_folder_12
             (OtherError (py "download failed")) fresh_process).
  - reflexivity.
  - reflexivity.
  - reflexivity.
Defined.

Lemma prepare_error_escapes_witness :
  let a := {| a_query := Ok tt; a_result := Raise NotFound;
              a_read_csv := Ok {| df_columns := [py "ts_ms"; py "column_1"];
                                  df_rows := 1 |};
              a_astype := Ok tt; a_load := Ok tt |} in
  fst (upload_csv_to_bq unidecode_excerpt (py "ds") a
         (py "folder_1") (py "a.csv") (py "id-a.csv") fresh_process)
  = Raise (ValueError (py "cannot insert ts_ms, already exists")).
Proof.
  cbv zeta.
  rewrite (prepare_error_escapes unidecode_excerpt (py "ds") _
             (py "folder_1") (py "a.csv") (py "id-a.csv") config_folder_12
             {| df_columns := [py "ts_ms"; py "column_1"]; df_rows := 1 |}
             (ValueError (py "cannot insert ts_ms, already exists"))
             fresh_process).
  - reflexivity.
  - reflexivity.
  - reflexivity.
  - reflexivity.
  - reflexivity.
Defined.

(** ** The run, further properties *)

Lemma mails_app (l1 l2 : list event) : mails (l1 ++ l2) = mails l1 ++ mails l2.
Proof. apply omap_app. Qed.

Ltac mail_leaf :=
  rewrite ?add_log_app; eexists;
  (split;
   [ cbn [snd log add_log bump_counter add_file]; reflexivity
   | unfold delay_at; try destruct (_ mod 5 =? 0)%Z; reflexivity ]).

Section RunMore.

Variable table : N -> str.
Variables shared_drive_name dataset project : str.
Variable w : world.

Local Abbreviation body := (process_item table dataset project).
Local Abbreviation run := (run_transfer table shared_drive_name dataset project w).

(** X15: processing one listed file sends at most one mail: the error
  mail for that file when it is skipped as empty, unreadable or not
  loadable, and no mail when it is loaded, filtered out, already
  present, or when an exception escapes. *)
Theorem one_mail_per_skipped_file (folders_dict : gmap str str)
      (item : drive_file) (s : state) :
exists evs,
  log (snd (body folders_dict item s)) = log s ++ evs
  /\ mails evs
     = match notified (classify table folders_dict item) with
       | Some error =>
           [ (error_subject,
              error_text (d_name item) (item_folder folders_dict item) error) ]
       | None => []
       end.
Proof.
unfold process_item, classify, item_folder.
destruct (d_trashed item).
{ exists []. by rewrite app_nil_r. }
destruct (d_parents item) as [|parent parents].
{ exists []. by rewrite app_nil_r. }
destruct (folders_dict !! parent) as [[|ch folder]|].
1, 3: exists []; by rewrite app_nil_r.
set (folder_name := ch :: folder).
destruct (str_in folder_name all_folders) eqn:Hallowed.
2: { exists []. by rewrite app_nil_r. }
destruct (allowed_folder table folder_name Hallowed)
  as (-> & [cfg Hcfg] & [schema Hschema]).
unfold bind at 1. rewrite if_table_not_in_bq_eq.
destruct (gate_result (d_answers item)) as [[]|e].
2, 3: mail_leaf.
rewrite (upload_csv_to_bq_eq table dataset (d_answers item) folder_name
           (d_name item) (d_id item) cfg _ Hcfg).
unfold classify_upload. cbn [default]. rewrite ?add_log_app.
destruct (a_read_csv (d_answers item)) as [df|e].
- destruct (df_empty df); [mail_leaf|].
  destruct (prepare_df table (d_answers item) df (d_name item) folder_name)
    as [df'|e]; [|mail_leaf].
  rewrite (upload_df_to_bq_eq table dataset (d_answers item) df' folder_name
             (d_name item) schema _ Hschema).
  assert (Hc : forall l, self_counter (add_log s l) = self_counter s)
    by reflexivity.
  rewrite Hc.
  destruct (a_load (d_answers item)) as [[]|e]; [mail_leaf|].
  destruct e; mail_leaf.
- destruct e; mail_leaf.
Qed.

Lemma for_each_files_added (folders_dict : gmap str str)
    (items : list drive_file) (s : state) :
exists more,
  files_added (snd (for_each items (body folders_dict) s))
  = files_added s ++ more.
Proof.
revert s. induction items as [|item items IH]; intros s.
- exists []. by rewrite app_nil_r.
- destruct (process_item_spec table dataset project folders_dict item s)
    as (evs & Heq & _).
  cbn [for_each]. unfold bind. rewrite Heq.
  destruct (result_of _) as [[]|e].
  + match goal with
    | |- context [for_each items _ ?s1] => destruct (IH s1) as [more Hmore]
    end.
    rewrite Hmore. cbn [files_added]. rewrite <- app_assoc. eauto.
  + cbn [snd files_added]. eauto.
Qed.

(** X16: no run removes a name from [files_added]: whatever the run
  does and however it ends, the list it leaves starts with the list
  it found; in particular the end-of-run notification does not empty
  it. *)
Theorem files_added_only_grows (s : state) :
exists more, files_added (snd (run s)) = files_added s ++ more.
Proof.
rewrite run_transfer_eq.
destruct (discovery shared_drive_name w) as [[folders_ids items]|e].
2: { exists []. by rewrite app_nil_r. }
destruct items as [|item items].
{ exists []. by rewrite app_nil_r. }
unfold iterate_through_items, bind.
destruct (for_each_files_added (make_folders_dict folders_ids)
            (item :: items) s) as [more Hmore].
destruct (for_each (item :: items) _ s) as [[[]|e] s1].
- rewrite send_confirmation_mail_eq. exists more. exact Hmore.
- exists more. exact Hmore.
Qed.

(** X17: in a run that ends without exception, the counter of the
  connector advances by exactly the number of load attempts the run
  made. *)
Theorem counter_counts_load_attempts (s : state) :
fst (run s) = Ok tt ->
exists evs,
  log (snd (run s)) = log s ++ evs
  /\ self_counter (snd (run s)) = (self_counter s + Z.of_nat (attempts evs))%Z.
Proof.
rewrite run_transfer_eq.
destruct (discovery shared_drive_name w) as [[folders_ids items]|e];
  [|discriminate].
destruct items as [|item items].
{ intros _. exists []. rewrite app_nil_r. split; [reflexivity|]. cbn. lia. }
unfold iterate_through_items, bind.
destruct (for_each_items_spec table dataset project
            (make_folders_dict folders_ids) (item :: items) s)
  as (evs & s1 & Heq & Hlog & _ & _ & _ & Hok).
rewrite Heq.
destruct (first_abort _) as [[]|e]; [|discriminate].
intros _. destruct (Hok eq_refl) as [_ Hcnt].
rewrite send_confirmation_mail_eq. cbn [snd].
exists (evs ++ [summary_mail (files_added s1)]).
split.
- cbn [add_log log]. by rewrite Hlog, app_assoc.
- rewrite attempts_app.
  assert (Hm : attempts [summary_mail (files_added s1)] = 0%nat)
    by (by destruct (files_added s1)).
  rewrite Hm, Nat.add_0_r. exact Hcnt.
Qed.

End RunMore.

Lemma counter_counts_load_attempts_witness :
  self_counter (snd (example_run four_new_files fresh_process)) = 5%Z.
Proof.
  destruct (counter_counts_load_attempts unidecode_excerpt (py "shared")
              (py "ds") (py "proj") (world_with four_new_files) fresh_process)
    as (evs & Hlog & Hcnt).
  - vm_compute. reflexivity.
  - change (example_run four_new_files fresh_process)
      with (run_transfer unidecode_excerpt (py "shared") (py "ds") (py "proj")
              (world_with four_new_files) fresh_process).
    cbn [fresh_process log app] in Hlog.
    rewrite Hcnt, <- Hlog. vm_compute. reflexivity.
Defined.

(** ** Discovery: the drive and the folder dictionary *)

Lemma make_folders_dict_snoc (folders_ids : list drive_file) (d : drive_file) :
  make_folders_dict (folders_ids ++ [d])
  = <[d_id d := d_name d]> (make_folders_dict folders_ids).
Proof. unfold make_folders_dict. by rewrite fold_left_app. Qed.

(** X18: the folder dictionary built from the folder listing has an entry
    exactly for the listed ids, and for an id listed more than once it
    keeps the name of the last entry with that id. *)
Theorem folders_dict_last_wins (folders_ids : list drive_file) :
  (forall id, make_folders_dict folders_ids !! id = None
              <-> id ∉ map d_id folders_ids)
  /\ (forall pre d post,
        folders_ids = pre ++ d :: post ->
        d_id d ∉ map d_id post ->
        make_folders_dict folders_ids !! d_id d = Some (d_name d)).
Proof.
  split.
  - induction folders_ids as [|d l IH] using rev_ind; intros id.
    + split; [intros _; apply not_elem_of_nil|reflexivity].
    + rewrite make_folders_dict_snoc, map_app. cbn [map].
      rewrite not_elem_of_app, not_elem_of_cons.
      destruct (decide (d_id d = id)) as [->|Hne].
      * rewrite lookup_insert_eq. split; [discriminate|].
        intros (_ & Hid & _). done.
      * rewrite lookup_insert_ne by exact Hne. rewrite IH.
        split; [intros H; split; [exact H|split; [congruence|apply not_elem_of_nil]]|].
        by intros [H _].
  - intros pre d post -> Hd.
    induction post as [|x post IH] using rev_ind.
    + by rewrite make_folders_dict_snoc, lookup_insert_eq.
    + rewrite map_app, not_elem_of_app in Hd. destruct Hd as [Hpost Hx].
      cbn in Hx. apply not_elem_of_cons in Hx as [Hx _].
      replace (pre ++ d :: post ++ [x]) with ((pre ++ d :: post) ++ [x])
        by (by rewrite <- app_assoc).
      rewrite make_folders_dict_snoc, lookup_insert_ne by congruence.
      by apply IH.
Qed.

Lemma folders_dict_last_wins_witness :
  make_folders_dict [folder_entry "F1" "old name"; folder_entry "F2" "folder_2";
                     folder_entry "F1" "folder_1"] !! py "F1"
  = Some (py "folder_1").
Proof.
  destruct (folders_dict_last_wins
              [folder_entry "F1" "old name"; folder_entry "F2" "folder_2";
               folder_entry "F1" "folder_1"]) as [_ Hlast].
  apply (Hlast [folder_entry "F1" "old name"; folder_entry "F2" "folder_2"]
               (folder_entry "F1" "folder_1") []).
  - reflexivity.
  - apply not_elem_of_nil.
Defined.

(** X19: when the drive listing succeeds, [get_shared_drive_id] never
    raises and leaves the state as it is; it returns the id of the first
    listed drive with the configured name, and [None] exactly when no
    listed drive has that name. *)
Theorem shared_drive_lookup (shared_drive_name : str) (w : world)
        (drives : list drive) (s : state) :
  w_drives w = Ok drives ->
  get_shared_drive_id shared_drive_name w s
  = (Ok (find_drive shared_drive_name drives), s)
  /\ (find_drive shared_drive_name drives = None
      <-> shared_drive_name ∉ map drive_name drives)
  /\ (forall pre d post,
        drives = pre ++ d :: post ->
        drive_name d = shared_drive_name ->
        shared_drive_name ∉ map drive_name pre ->
        find_drive shared_drive_name drives = Some (drive_id d)).
Proof.
  intros Hd. split; [|split].
  - unfold get_shared_drive_id, bind, lift, ret. rewrite Hd.
    by destruct drives.
  - clear Hd. induction drives as [|d drives IH].
    + split; [intros _; apply not_elem_of_nil|reflexivity].
    + cbn [find_drive map]. rewrite not_elem_of_cons. unfold str_eqb.
      destruct (decide (drive_name d = shared_drive_name)) as [Heq|Hne].
      * rewrite bool_decide_eq_true_2 by exact Heq.
        split; [discriminate|]. intros [H _]. congruence.
      * rewrite bool_decide_eq_false_2 by exact Hne. rewrite IH.
        split; [intros H; split; [congruence|exact H]|]. by intros [_ H].
  - clear Hd. intros pre d post -> Hname Hpre.
    induction pre as [|x pre IH].
    + cbn [app find_drive]. unfold str_eqb.
      by rewrite bool_decide_eq_true_2.
    + cbn [map] in Hpre. apply not_elem_of_cons in Hpre as [Hx Hpre].
      cbn [app find_drive]. unfold str_eqb.
      rewrite bool_decide_eq_false_2 by congruence. by apply IH.
Qed.

Lemma shared_drive_lookup_witness :
  get_shared_drive_id (py "missing") (world_with []) fresh_process
  = (Ok (find_drive (py "missing")
           [ {| drive_name := py "shared"; drive_id := py "D1" |} ]),
     fresh_process).
Proof.
  apply (shared_drive_lookup (py "missing") (world_with [])
           [ {| drive_name := py "shared"; drive_id := py "D1" |} ] fresh_process).
  reflexivity.
Defined.

(** ** The end-of-run notification *)

Lemma split_scan_no_sep (sep : N) (cur s : str) :
  sep ∉ s -> split_scan sep cur s = [rev cur ++ s].
Proof.
  revert cur. induction s as [|c s IH]; intros cur Hs.
  - cbn. by rewrite app_nil_r.
  - apply not_elem_of_cons in Hs as [Hc Hs]. cbn [split_scan].
    destruct (N.eqb_spec c sep) as [->|_]; [done|].
    rewrite IH by exact Hs. cbn [rev]. by rewrite <- app_assoc.
Qed.

Lemma split_scan_at_sep (sep : N) (cur s rest : str) :
  sep ∉ s ->
  split_scan sep cur (s ++ sep :: rest)
  = (rev cur ++ s) :: split_scan sep [] rest.
Proof.
  revert cur. induction s as [|c s IH]; intros cur Hs.
  - cbn [app split_scan]. rewrite N.eqb_refl. by rewrite app_nil_r.
  - apply not_elem_of_cons in Hs as [Hc Hs]. cbn [app split_scan].
    destruct (N.eqb_spec c sep) as [->|_]; [done|].
    rewrite IH by exact Hs. cbn [rev]. by rewrite <- app_assoc.
Qed.

Lemma split_join_lines (parts : list str) :
  parts <> [] ->
  Forall (fun p => 10%N ∉ p) parts ->
  split 10 (join nl parts) = parts.
Proof.
  intros Hne Hall. unfold split.
  induction Hall as [|p parts Hp Hparts IH]; [done|].
  destruct parts as [|q parts].
  - cbn [join]. by rewrite split_scan_no_sep.
  - change (join nl (p :: q :: parts)) with (p ++ 10%N :: join nl (q :: parts)).
    rewrite split_scan_at_sep by exact Hp. cbn [rev app].
    by rewrite IH.
Qed.

(** X20: when at least one name is recorded and no recorded name holds a
    newline, [send_confirmation_mail] adds one mail to the log and
    nothing else, under the subject of the list of files; its body,
    split at its newlines, is the heading line followed by the recorded
    names in order, one per line; [files_added] and the counter are as
    before. *)
Theorem summary_body_lines (s : state) :
  files_added s <> [] ->
  Forall (fun name => 10%N ∉ name) (files_added s) ->
  exists body,
    snd (send_confirmation_mail s) = add_log s [EMail summary_subject body]
    /\ split 10 body = py "Files added: " :: files_added s.
Proof.
  intros Hne Hall.
  unfold send_confirmation_mail, get_files_added, bind.
  destruct (files_added s) as [|name added] eqn:Hfa; [done|].
  eexists. split; [reflexivity|].
  unfold split, nl.
  change (py "Files added: " ++ [10%N] ++ join [10%N] (name :: added))
    with (py "Files added: " ++ 10%N :: join nl (name :: added)).
  rewrite split_scan_at_sep.
  - cbn [rev app]. f_equal. by apply split_join_lines.
  - apply (bool_decide_unpack _). reflexivity.
Qed.

Lemma summary_body_lines_witness :
  let s := {| files_added := [py "a.csv"; py "b.csv"];
              counter := Some 3%Z;
              log := [] |} in
  exists body,
    snd (send_confirmation_mail s) = add_log s [EMail summary_subject body]
    /\ split 10 body = [py "Files added: "; py "a.csv"; py "b.csv"].
Proof.
  apply (summary_body_lines {| files_added := [py "a.csv"; py "b.csv"];
                               counter := Some 3%Z;
                               log := [] |}).
  - discriminate.
  - repeat constructor; apply (bool_decide_unpack _); reflexivity.
Defined.

(** ** [StorageConnector], further properties *)

Lemma byte_eqb_spec (a b : byte) : reflect (a = b) (Byte.eqb a b).
Proof.
  destruct (Byte.eqb a b) eqn:H; constructor.
  - by apply Byte.byte_dec_bl.
  - intros ->. by rewrite Byte.byte_dec_lb in H.
Qed.

Lemma readlines_scan_concat (cur data : list byte) :
  concat (readlines_scan cur data) = rev cur ++ data.
Proof.
  revert cur. induction data as [|b data IH]; intros cur.
  - cbn. destruct cur; cbn; by rewrite ?app_nil_r.
  - cbn [readlines_scan]. destruct (Byte.eqb b x0a).
    + cbn [concat]. rewrite IH. cbn [rev app]. by rewrite <- app_assoc.
    + rewrite IH. cbn [rev]. by rewrite <- app_assoc.
Qed.

Lemma readlines_scan_length (cur data : list byte) :
  x0a ∉ cur ->
  length (readlines_scan cur data)
  = (count_newlines data + open_last_line (rev cur ++ data))%nat.
Proof.
  revert cur. induction data as [|b data IH]; intros cur Hcur.
  - cbn [readlines_scan count_newlines]. rewrite app_nil_r.
    unfold open_last_line. destruct cur as [|c cur]; [reflexivity|].
    cbn [rev]. rewrite last_snoc.
    apply not_elem_of_cons in Hcur as [Hc _].
    destruct (byte_eqb_spec c x0a); [congruence|reflexivity].
  - cbn [readlines_scan count_newlines].
    destruct (byte_eqb_spec b x0a) as [->|Hb].
    + cbn [length]. rewrite IH by apply not_elem_of_nil. cbn [rev app].
      unfold open_last_line. rewrite last_app_cons, last_cons.
      destruct (last data); reflexivity.
    + rewrite IH.
      * cbn [rev]. by rewrite <- app_assoc.
      * apply not_elem_of_cons. split; [congruence|exact Hcur].
Qed.

(** X21: the lines [count_lines] iterates over put together give back
    the content of the object, and their number is the number of newline
    bytes, plus one when the content ends with bytes that no newline
    terminates; so for content ending in a newline [count_lines] returns
    the number of newlines minus one. *)
Theorem lines_of_object (b : blob) :
  concat (readlines (blob_gunzip b)) = blob_gunzip b
  /\ records_of b
     = Z.of_nat (count_newlines (blob_gunzip b) + open_last_line (blob_gunzip b))
  /\ (forall s, last (blob_gunzip b) = Some x0a ->
        fst (count_lines b s)
        = Ok (Z.of_nat (count_newlines (blob_gunzip b)) - 1)%Z).
Proof.
  assert (Hlen : records_of b
            = Z.of_nat (count_newlines (blob_gunzip b)
                        + open_last_line (blob_gunzip b))).
  { unfold records_of, readlines.
    by rewrite readlines_scan_length by apply not_elem_of_nil. }
  split; [apply (readlines_scan_concat [])|]. split; [exact Hlen|].
  intros s Hlast. rewrite count_lines_eq.
  assert (Hopen : open_last_line (blob_gunzip b) = 0%nat).
  { unfold open_last_line. by rewrite Hlast. }
  rewrite Hopen, Nat.add_0_r in Hlen.
  destruct (readlines (blob_gunzip b)) as [|l ls] eqn:Hl.
  - exfalso. pose proof (readlines_scan_concat [] (blob_gunzip b)) as Hc.
    fold (readlines (blob_gunzip b)) in Hc. rewrite Hl in Hc. cbn in Hc.
    rewrite <- Hc in Hlast. discriminate.
  - cbn [fst]. by rewrite Hlen.
Qed.

Lemma lines_of_object_witness :
  fst (count_lines example_blob []) = Ok 2%Z.
Proof.
  destruct (lines_of_object example_blob) as (_ & _ & Hcount).
  rewrite Hcount; reflexivity.
Defined.

Lemma startswith_spec (p s : str) :
  startswith p s = true <-> exists post, s = p ++ post.
Proof.
  revert s. induction p as [|a p IH]; intros s.
  - split; [intros _; by exists s|reflexivity].
  - destruct s as [|b s]; cbn [startswith].
    + split; [discriminate|]. intros [post H]. discriminate.
    + rewrite andb_true_iff, IH. split.
      * intros [Hab [post ->]]. apply N.eqb_eq in Hab as ->. by exists post.
      * intros [post [= -> ->]]. split; [apply N.eqb_refl|by exists post].
Qed.

Lemma contains_spec (sub s : str) :
  contains sub s = true <-> exists pre post, s = pre ++ sub ++ post.
Proof.
  induction s as [|c s IH].
  - cbn [contains]. rewrite orb_false_r, startswith_spec. split.
    + intros [post ->]. by exists [], post.
    + intros (pre & post & H). symmetry in H.
      apply app_eq_nil in H as [-> H]. apply app_eq_nil in H as [-> ->].
      by exists [].
  - cbn [contains]. rewrite orb_true_iff, startswith_spec, IH. split.
    + intros [[post ->]|(pre & post & ->)].
      * by exists [], post.
      * by exists (c :: pre), post.
    + intros (pre & post & H). destruct pre as [|c' pre].
      * left. by exists post.
      * injection H as -> ->. right. by exists pre, post.
Qed.

Section StorageMore.

Variables bucket_name project_name dataset : str.
Variable tables_to_skip : list str.

Local Abbreviation load_one :=
(load_blob bucket_name project_name dataset tables_to_skip).

(** X22: [check_if_table_to_skip] answers true exactly when some entry of
  [tables_to_skip] occurs in the table name as a substring; an empty
  string among the entries therefore skips every table, and an empty
  list skips none. *)
Theorem table_skipped_iff_substring (to_skip : list str) (table_name : str) :
(check_if_table_to_skip to_skip table_name = true
 <-> exists t pre post, t ∈ to_skip /\ table_name = pre ++ t ++ post)
/\ ([] ∈ to_skip -> check_if_table_to_skip to_skip table_name = true)
/\ check_if_table_to_skip [] table_name = false.
Proof.
assert (Hiff : check_if_table_to_skip to_skip table_name = true
               <-> exists t pre post,
                     t ∈ to_skip /\ table_name = pre ++ t ++ post).
{ induction to_skip as [|t0 l IH]; cbn [check_if_table_to_skip].
  - split; [discriminate|]. intros (t & _ & _ & Ht & _).
    by apply elem_of_nil in Ht.
  - destruct (contains t0 table_name) eqn:Hc.
    + split; [|reflexivity]. intros _.
      apply contains_spec in Hc as (pre & post & ->).
      exists t0, pre, post. split; [left|reflexivity].
    + rewrite IH. split.
      * intros (t & pre & post & Ht & ->). exists t, pre, post.
        split; [by right|reflexivity].
      * intros (t & pre & post & Ht & ->).
        apply elem_of_cons in Ht as [->|Ht].
        -- assert (contains t0 (pre ++ t0 ++ post) = true)
             by (apply contains_spec; eauto).
           congruence.
        -- exists t, pre, post. by split. }
split; [exact Hiff|]. split; [|reflexivity].
intros Hin. apply Hiff. exists [], [], table_name. by split.
Qed.

(** X23: an object whose table name is to be skipped is passed over with
  one printed line: no load job is started for it, its lines are not
  counted, and the loop goes on with the next object. *)
Theorem skipped_blob_is_not_loaded (b : blob) (rest : list blob)
      (table_name : str) (s : list sevent) :
get_table_name_from_blob b = Ok table_name ->
check_if_table_to_skip tables_to_skip table_name = true ->
for_each (b :: rest) load_one s
= for_each rest load_one (s ++ [SPrint (table_name ++ py " skipped")]).
Proof.
intros Hname Hskip. cbn [for_each]. unfold bind at 1.
unfold load_blob at 1. unfold bind, lift. by rewrite Hname, Hskip.
Qed.

(** X24: when the load job of an object raises [BadRequest], the object
  is skipped with one printed line naming the error, its lines are not
  counted, and the loop goes on with the next object. *)
Theorem bad_request_is_skipped (b : blob) (rest : list blob)
      (table_name msg : str) (s : list sevent) :
get_table_name_from_blob b = Ok table_name ->
check_if_table_to_skip tables_to_skip table_name = false ->
blob_load b = Raise (BadRequest msg) ->
for_each (b :: rest) load_one s
= for_each rest load_one
    (s ++ [ SLoadJob (get_uri_from_blob bucket_name b)
              (project_name ++ py "." ++ dataset ++ py "." ++ table_name);
            SPrint (table_name ++ py " skipped, because of error: " ++ msg) ]).
Proof.
intros Hname Hskip Hload. cbn [for_each]. unfold bind at 1.
unfold load_blob at 1. unfold bind at 1, lift at 1.
rewrite Hname, Hskip.
unfold try_except, check_if_all_rows_uploaded, upload_data_to_bq, bind,
  semit, lift.
rewrite Hload. by rewrite <- app_assoc.
Qed.

(** X25: an exception other than [BadRequest] ends the whole loop over
  the objects, the following objects are not loaded: so does the
  exception of a load job, and so does [UnboundLocalError] for an
  object without any line, raised after its load job has run. *)
Theorem other_failures_end_the_load (b : blob) (rest : list blob)
      (table_name : str) (s : list sevent) :
get_table_name_from_blob b = Ok table_name ->
check_if_table_to_skip tables_to_skip table_name = false ->
let started :=
  s ++ [ SLoadJob (get_uri_from_blob bucket_name b)
           (project_name ++ py "." ++ dataset ++ py "." ++ table_name) ] in
(forall e, blob_load b = Raise e -> (forall msg, e <> BadRequest msg) ->
   for_each (b :: rest) load_one s = (Raise e, started))
/\ (forall rows_loaded, blob_load b = Ok rows_loaded ->
      blob_gunzip b = [] ->
      for_each (b :: rest) load_one s = (Raise UnboundLocalError, started)).
Proof.
intros Hname Hskip. cbv zeta. split.
- intros e Hload Hne. cbn [for_each]. unfold bind at 1.
  unfold load_blob at 1. unfold bind at 1, lift at 1.
  rewrite Hname, Hskip.
  unfold try_except, check_if_all_rows_uploaded, upload_data_to_bq, bind,
    semit, lift.
  rewrite Hload. destruct e; try reflexivity. by destruct (Hne msg).
- intros rows_loaded Hload Hdata. cbn [for_each]. unfold bind at 1.
  unfold load_blob at 1. unfold bind at 1, lift at 1.
  rewrite Hname, Hskip.
  unfold try_except, check_if_all_rows_uploaded, upload_data_to_bq.
  unfold bind at 1. unfold bind at 1. unfold semit at 1. unfold lift at 1.
  rewrite Hload. unfold bind at 1. rewrite count_lines_eq, Hdata.
  reflexivity.
Qed.

End StorageMore.

Lemma table_skipped_iff_substring_witness :
  check_if_table_to_skip [py "tmp"; []] (py "events") = true.
Proof.
  destruct (table_skipped_iff_substring [py "tmp"; []] (py "events"))
    as (_ & Hempty & _).
  apply Hempty. right. left.
Defined.

Lemma skipped_blob_is_not_loaded_witness :
  for_each [example_blob] (load_blob (py "bucket") (py "proj") (py "ds") [py "vent"]) []
  = (Ok tt, [SPrint (py "events skipped")]).
Proof.
  rewrite (skipped_blob_is_not_loaded (py "bucket") (py "proj") (py "ds")
             [py "vent"] example_blob [] (py "events") []).
  - reflexivity.
  - reflexivity.
  - reflexivity.
Defined.

Lemma bad_request_is_skipped_witness :
  let b := {| blob_name := py "2019/events.csv.gz"; blob_gunzip := [];
              blob_load := Raise (BadRequest (py "400 bad file")) |} in
  for_each [b; example_blob] (load_blob (py "bucket") (py "proj") (py "ds") []) []
  = (Ok tt,
     [ SLoadJob (py "gs://bucket/2019/events.csv.gz") (py "proj.ds.events");
       SPrint (py "events skipped, because of error: 400 bad file");
       SLoadJob (py "gs://bucket/2019/events.csv.gz") (py "proj.ds.events");
       SPrint (py "Rows counted:  2");
       SPrint (py "Loaded 2 rows.") ]).
Proof.
  cbv zeta.
  rewrite (bad_request_is_skipped (py "bucket") (py "proj") (py "ds") []
             _ [example_blob] (py "events") (py "400 bad file") []).
  - reflexivity.
  - reflexivity.
  - reflexivity.
  - reflexivity.
Defined.

Lemma other_failures_end_the_load_witness :
  for_each [empty_blob; example_blob]
           (load_blob (py "bucket") (py "proj") (py "ds") []) []
  = (Raise UnboundLocalError,
     [ SLoadJob (py "gs://bucket/2019/nothing.csv.gz") (py "proj.ds.nothing") ]).
Proof.
  destruct (other_failures_end_the_load (py "bucket") (py "proj") (py "ds") []
              empty_blob [example_blob] (py "nothing") [])
    as [_ Hempty].
  - reflexivity.
  - reflexivity.
  - apply (Hempty 0%Z); reflexivity.
Defined.

Lemma split_scan_cons (sep : N) (cur s : str) :
  exists first others, split_scan sep cur s = first :: others.
Proof.
  revert cur. induction s as [|c s IH]; intros cur; cbn [split_scan].
  - eauto.
  - destruct (N.eqb c sep); eauto.
Qed.

Lemma split_first_piece (sep : N) (piece rest : str) :
  sep ∉ piece ->
  exists others, split sep (piece ++ sep :: rest) = piece :: others.
Proof.
  intros Hp. unfold split. rewrite split_scan_at_sep by exact Hp. eauto.
Qed.

(** X26: [get_table_name_from_blob] raises [IndexError] exactly when the
    object name has no "/"; for a name made of a prefix without "/", a
    "/", a table name without "/" or ".", and then either nothing or a
    "." and any extension, it returns the table name. *)
Theorem table_name_of_blob (b : blob) :
  (get_table_name_from_blob b = Raise IndexError <-> 47%N ∉ blob_name b)
  /\ (forall prefix table_name rest,
        47%N ∉ prefix -> 47%N ∉ table_name -> 46%N ∉ table_name ->
        blob_name b = prefix ++ [47%N] ++ table_name
        \/ blob_name b = prefix ++ [47%N] ++ table_name ++ [46%N] ++ rest ->
        get_table_name_from_blob b = Ok table_name).
Proof.
  unfold get_table_name_from_blob. split.
  - destruct (decide (47%N ∈ blob_name b)) as [Hin|Hnot].
    + split; [|done]. intros Hraise. exfalso.
      apply list_elem_of_split_l in Hin as (pre & post & Heq & Hpre).
      rewrite Heq in Hraise. unfold split in Hraise.
      rewrite split_scan_at_sep in Hraise by exact Hpre.
      destruct (split_scan_cons 47 [] post) as (second & others & Hs).
      rewrite Hs in Hraise.
      destruct (split_scan_cons 46 [] second) as (first & others' & Hs').
      unfold split in Hraise. rewrite Hs' in Hraise. discriminate.
    + split; [done|]. intros _. unfold split.
      by rewrite split_scan_no_sep.
  - intros prefix table_name rest Hprefix Ht47 Ht46 [Hname|Hname];
      rewrite Hname; unfold split at 1; cbn [app].
    + rewrite split_scan_at_sep by exact Hprefix.
      rewrite split_scan_no_sep by exact Ht47. cbn [rev app].
      unfold split. by rewrite split_scan_no_sep.
    + rewrite split_scan_at_sep by exact Hprefix.
      assert (Hsecond : exists r others,
                split_scan 47 [] (table_name ++ 46%N :: rest)
                = (table_name ++ 46%N :: r) :: others).
      { destruct (decide (47%N ∈ rest)) as [Hin|Hnot].
        - apply list_elem_of_split_l in Hin as (r1 & r2 & -> & Hr1).
          exists r1. eexists.
          replace (table_name ++ 46%N :: r1 ++ 47%N :: r2)
            with ((table_name ++ 46%N :: r1) ++ 47%N :: r2)
            by (by rewrite <- app_assoc).
          rewrite split_scan_at_sep; [reflexivity|].
          rewrite not_elem_of_app, not_elem_of_cons. done.
        - exists rest, []. rewrite split_scan_no_sep; [reflexivity|].
          rewrite not_elem_of_app, not_elem_of_cons. done. }
      destruct Hsecond as (r & others & ->).
      destruct (split_first_piece 46 table_name r Ht46) as [others' ->].
      reflexivity.
Qed.

Lemma table_name_of_blob_witness :
  get_table_name_from_blob example_blob = Ok (py "events").
Proof.
  destruct (table_name_of_blob example_blob) as [_ Hname].
  apply (Hname (py "2019") (py "events") (py "csv.gz"));
    apply (bool_decide_unpack _); reflexivity.
Defined.

(** ** The path of a loaded file *)

Section UploadMore.

Variable table : N -> str.
Variables shared_drive_name dataset project : str.
Variable w : world.

(** X27: when the file parses to a non-empty frame, the frame can be
  prepared and the load succeeds, [upload_csv_to_bq] loads the prepared
  frame, with the schema of the folder, into the table
  [dataset.folder_name], after the delay due at the current counter;
  then the counter is one more than before and the file name is the
  last entry of [files_added]. *)
Theorem successful_upload (a : answers) (folder_name file_name file_id : str)
      (cfg : config) (schema : list field) (df df' : dataframe) (s : state) :
config_of folder_name = Ok cfg ->
create_schema table folder_name = Ok schema ->
a_read_csv a = Ok df ->
df_empty df = false ->
prepare_df table a df file_name folder_name = Ok df' ->
a_load a = Ok tt ->
let table_id := dataset ++ py "." ++ folder_name in
upload_csv_to_bq table dataset a folder_name file_name file_id s
= (Ok tt,
   {| files_added := files_added s ++ [file_name];
      counter := Some (self_counter s + 1)%Z;
      log := log s
             ++ [ EPrint (uploading_text folder_name file_name);
                  EDownload file_id (params_of cfg) ]
             ++ delay_at (self_counter s)
             ++ [ ELoad table_id df' schema;
                  EPrint (uploaded_text table_id) ] |}).
Proof.
intros Hcfg Hschema Hread Hempty Hprep Hload. cbv zeta.
rewrite (upload_csv_to_bq_eq table dataset a folder_name file_name file_id
           cfg s Hcfg), Hread, Hempty, Hprep.
rewrite (upload_df_to_bq_eq table dataset a df' folder_name file_name schema
           _ Hschema), Hload.
unfold add_file, bump_counter, add_log, self_counter.
cbn [files_added counter log]. by rewrite <- !app_assoc.
Qed.

(** X28: after one listed file has been processed, its name has been
  appended to [files_added] exactly when [upload_df_to_bq] returned for
  it, that is when the load succeeded or raised a [ValueError] that was
  mailed; in every other case [files_added] is as before. *)
Theorem name_recorded_when_load_returned (folders_dict : gmap str str)
      (item : drive_file) (s : state) :
let o := classify table folders_dict item in
let r := process_item table dataset project folders_dict item s in
fst r = result_of o
/\ files_added (snd r)
   = files_added s ++ (if is_loaded o || load_errored o
                       then [d_name item] else []).
Proof.
cbv zeta.
destruct (process_item_spec table dataset project folders_dict item s)
  as (evs & Heq & _).
cbv zeta in Heq. rewrite Heq. cbn [fst snd files_added].
by rewrite <- recorded_split.
Qed.

End UploadMore.

Lemma successful_upload_witness :
  files_added
    (snd (upload_csv_to_bq unidecode_excerpt (py "ds") new_file_answers
            (py "folder_1") (py "a.csv") (py "id-a.csv") fresh_process))
  = [py "a.csv"].
Proof.
  rewrite (successful_upload unidecode_excerpt (py "ds") new_file_answers
             (py "folder_1") (py "a.csv") (py "id-a.csv") config_folder_12
             (map (fun '(n, t) => {| f_name := py n; f_type := py t;
                                     f_description := py n |})
                [ ("column_1", "INT64"); ("column_2", "STRING");
                  ("column_3", "STRING"); ("column_4", "FLOAT64");
                  ("column_5", "FLOAT64"); ("column_6", "STRING");
                  ("column_7", "FLOAT64"); ("col_date", "TIMESTAMP") ]%string)
             {| df_columns := [py "column_1"; py "column_2"; py "column_3";
                               py "column_4"; py "column_5"; py "column_6";
                               py "column_7"; py "col_date"];
                df_rows := 3 |}
             {| df_columns := [py "ts_ms"; py "column_1"; py "column_2";
                               py "column_3"; py "column_4"; py "column_5";
                               py "column_6"; py "column_7"; py "col_date";
                               py "file"];
                df_rows := 3 |}
             fresh_process).
  - reflexivity.
  - reflexivity.
  - reflexivity.
  - reflexivity.
  - reflexivity.
  - reflexivity.
  - reflexivity.
Defined.
